(** * Steam OpenID 2.0 provider for next-auth: a shallow embedding

    The development follows [app/_auth/steam]: [getAuthorizationParams],
    [verifyAssertion] and the provider built by [Steam] with its
    [token.request], [userinfo.request] and [profile] members.

    Conventions.
    - A JavaScript string is kept as its UTF-8 bytes ([string]).
    - [x || ''] on a [string | null] is [or_empty]; [!x] on a string is
      [is_empty].
    - A plain object with string values is an association list in property
      order: assigning to an existing key keeps its place.
    - An exception is a [Throw] completion; a promise is a computation in
      [Async], which threads the list of HTTP requests issued so far and the
      number of UUIDs drawn.
    - The web platform ([new URL], [fetch], [uuidv4]) is the class
      [Platform]; [whatwg] is a reference instance used to run the code. *)

From Stdlib Require Import String Ascii List Bool Arith ZArith Lia.
From Stdlib Require Import DecimalString.
Import ListNotations.
Open Scope string_scope.

(** ** JavaScript values and completions *)

Module JS.

Inductive JSError : Type :=
| Error (message : string)
| TypeError (message : string)
| SyntaxError (message : string).

Inductive Completion (A : Type) : Type :=
| Normal (a : A)
| Throw (e : JSError).
Arguments Normal {A} a.
Arguments Throw {A} e.

(** [!s] for a string [s]. *)
Definition is_empty (s : string) : bool :=
  match s with
  | EmptyString => true
  | String _ _ => false
  end.

(** [x || ''] for [x : string | null]. *)
Definition or_empty (x : option string) : string :=
  match x with
  | Some s => s
  | None => ""
  end.

(** [s.split(sep)] for a one-character separator: never the empty list. *)
Fixpoint split (sep : ascii) (s : string) : list string :=
  match s with
  | EmptyString => [EmptyString]
  | String c r =>
      if Ascii.eqb c sep then EmptyString :: split sep r
      else match split sep r with
           | h :: t => String c h :: t
           | [] => [String c EmptyString]
           end
  end.

(** Objects with string values, [Record<string, string>]. *)
Definition JSObject : Type := list (string * string).

(** [o[k]] as [string | undefined]. *)
Fixpoint obj_get (o : JSObject) (k : string) : option string :=
  match o with
  | [] => None
  | (k', v') :: o' => if String.eqb k' k then Some v' else obj_get o' k
  end.

(** [o[k] = v]. *)
Fixpoint obj_set (o : JSObject) (k v : string) : JSObject :=
  match o with
  | [] => [(k, v)]
  | (k', v') :: o' =>
      if String.eqb k' k then (k', v) :: o' else (k', v') :: obj_set o' k v
  end.

(** [{ ...o, ...src }]: the properties of [src] are assigned in order. *)
Definition obj_spread (o src : JSObject) : JSObject :=
  fold_left (fun acc kv => obj_set acc (fst kv) (snd kv)) src o.

(** Values produced by [JSON.parse], with [undefined] for absent members.
    Numbers are kept as integers: the profile fields read here are integer
    codes and timestamps. *)
#[warning="-register-all"]
Inductive JSValue : Type :=
| JUndefined
| JNull
| JBool (b : bool)
| JNumber (n : Z)
| JString (s : string)
| JArray (l : list JSValue)
| JObject (o : list (string * JSValue)).

Fixpoint own_property (o : list (string * JSValue)) (k : string) : JSValue :=
  match o with
  | [] => JUndefined
  | (k', v) :: o' => if String.eqb k' k then v else own_property o' k
  end.

Definition cannot_read : JSError :=
  TypeError "Cannot read properties of undefined".

(** [v.name] for a member name that is neither an index nor inherited
    ([response], [players], [steamid], ...). *)
Definition member (v : JSValue) (name : string) : Completion JSValue :=
  match v with
  | JUndefined | JNull => Throw cannot_read
  | JObject o => Normal (own_property o name)
  | _ => Normal JUndefined
  end.

(** Number of bytes of the UTF-8 character that starts with [c]. *)
Definition utf8_width (c : ascii) : nat :=
  let n := nat_of_ascii c in
  if Nat.ltb n 192 then 1
  else if Nat.ltb n 224 then 2
  else if Nat.ltb n 240 then 3 else 4.

Definition first_char (s : string) : string :=
  match s with
  | EmptyString => EmptyString
  | String c _ => substring 0 (utf8_width c) s
  end.

(** [v[0]].  On a string this is its first character (for a character
    outside the Basic Multilingual Plane JavaScript gives half of a surrogate
    pair, which a UTF-8 string cannot hold). *)
Definition index0 (v : JSValue) : Completion JSValue :=
  match v with
  | JUndefined | JNull => Throw cannot_read
  | JArray l => Normal (nth 0 l JUndefined)
  | JString s =>
      Normal (if is_empty s then JUndefined else JString (first_char s))
  | JObject o => Normal (own_property o "0")
  | _ => Normal JUndefined
  end.

End JS.
Import JS.

(** ** Regular expressions of the module *)

Module RegExp.

Definition code (c : ascii) : nat := nat_of_ascii c.

Definition in_range (lo hi : nat) (c : ascii) : bool :=
  Nat.leb lo (code c) && Nat.leb (code c) hi.

(** [\d]: ASCII digits only. *)
Definition is_digit : ascii -> bool := in_range 48 57.

(** Case folding of the [i] flag without the [u] flag: only ASCII letters
    fold onto ASCII letters. *)
Definition fold_case (c : ascii) : ascii :=
  if in_range 65 90 c then ascii_of_nat (code c + 32) else c.

(** A literal at the start of [s]; the rest of [s] when it is there. *)
Fixpoint literal (ci : bool) (lit s : string) : option string :=
  match lit, s with
  | EmptyString, _ => Some s
  | String a lit', String b s' =>
      if (if ci then Ascii.eqb (fold_case a) (fold_case b) else Ascii.eqb a b)
      then literal ci lit' s' else None
  | String _ _, EmptyString => None
  end.

(** [\s] on one byte: TAB, LF, VT, FF, CR, SP. *)
Definition space1 (c : ascii) : bool :=
  in_range 9 13 c || Nat.eqb (code c) 32.

(** [\s] on two bytes: U+00A0. *)
Definition space2 (a b : ascii) : bool :=
  Nat.eqb (code a) 194 && Nat.eqb (code b) 160.

(** [\s] on three bytes: U+1680, U+2000..U+200A, U+2028, U+2029, U+202F,
    U+205F, U+3000, U+FEFF. *)
Definition space3 (a b c : ascii) : bool :=
  (Nat.eqb (code a) 225 && Nat.eqb (code b) 154 && Nat.eqb (code c) 128)
  || (Nat.eqb (code a) 226 && Nat.eqb (code b) 128
      && (in_range 128 138 c || in_range 168 169 c || Nat.eqb (code c) 175))
  || (Nat.eqb (code a) 226 && Nat.eqb (code b) 129 && Nat.eqb (code c) 159)
  || (Nat.eqb (code a) 227 && Nat.eqb (code b) 128 && Nat.eqb (code c) 128)
  || (Nat.eqb (code a) 239 && Nat.eqb (code b) 187 && Nat.eqb (code c) 191).

(** [\s*], greedy.  What follows it in the pattern ([:] or [t]) is never
    white space, so no shorter run has to be tried. *)
Fixpoint spaces (s : string) : string :=
  match s with
  | EmptyString => s
  | String a r =>
      if space1 a then spaces r
      else match r with
           | EmptyString => s
           | String b r2 =>
               if space2 a b then spaces r2
               else match r2 with
                    | EmptyString => s
                    | String c r3 => if space3 a b c then spaces r3 else s
                    end
           end
  end.

(** [/is_valid\s*:\s*true/i] anchored at the start of [s]. *)
Definition is_valid_here (s : string) : bool :=
  match literal true "is_valid" s with
  | None => false
  | Some r1 =>
      match literal false ":" (spaces r1) with
      | None => false
      | Some r2 =>
          match literal true "true" (spaces r2) with
          | None => false
          | Some _ => true
          end
      end
  end.

(** [s.match(/is_valid\s*:\s*true/i)] is not null: the pattern is tried at
    each position. *)
Fixpoint is_valid_true (s : string) : bool :=
  is_valid_here s
  || match s with
     | EmptyString => false
     | String _ r => is_valid_true r
     end.

(** [\d+$]: the rest of the string is one or more digits. *)
Fixpoint all_digits (s : string) : bool :=
  match s with
  | EmptyString => true
  | String c r => is_digit c && all_digits r
  end.

Definition digits_to_end (s : string) : option string :=
  if negb (is_empty s) && all_digits s then Some s else None.

(** [:\/\/steamcommunity\.com\/openid\/id\/(\d+)$] *)
Definition identifier_tail (s : string) : option string :=
  match literal false "://steamcommunity.com/openid/id/" s with
  | None => None
  | Some d => digits_to_end d
  end.

(** [s.match(/^https?:\/\/steamcommunity\.com\/openid\/id\/(\d+)$/)]: the
    first group of the match, [None] for a null match.  [s?] first takes the
    [s] and gives it back if the rest then fails. *)
Definition IDENTIFIER_PATTERN (s : string) : option string :=
  match literal false "http" s with
  | None => None
  | Some r =>
      match r with
      | String "s" r' =>
          match identifier_tail r' with
          | Some d => Some d
          | None => identifier_tail r
          end
      | _ => identifier_tail r
      end
  end.

End RegExp.
Import RegExp.

(** ** The web platform *)

Module Web.

(** [URLSearchParams]: a list of name-value pairs, duplicates allowed. *)
Definition URLSearchParams : Type := list (string * string).

(** [new URLSearchParams(record)]: one pair per property, in order. *)
Definition URLSearchParams_of (o : JSObject) : URLSearchParams := o.

(** [params.get(name)]: the first value of that name, or null. *)
Fixpoint URLSearchParams_get (p : URLSearchParams) (name : string)
  : option string :=
  match p with
  | [] => None
  | (k, v) :: p' =>
      if String.eqb k name then Some v else URLSearchParams_get p' name
  end.

Definition hex_digit (n : nat) : ascii :=
  if Nat.ltb n 10 then ascii_of_nat (48 + n) else ascii_of_nat (55 + n).

(** The application/x-www-form-urlencoded byte serializer. *)
Definition urlencode_byte (c : ascii) : string :=
  if in_range 48 57 c || in_range 65 90 c || in_range 97 122 c
     || Nat.eqb (code c) 42 || Nat.eqb (code c) 45
     || Nat.eqb (code c) 46 || Nat.eqb (code c) 95
  then String c EmptyString
  else if Nat.eqb (code c) 32 then "+"
  else String "%" (String (hex_digit (code c / 16))
                     (String (hex_digit (code c mod 16)) EmptyString)).

Fixpoint urlencode (s : string) : string :=
  match s with
  | EmptyString => EmptyString
  | String c r => urlencode_byte c ++ urlencode r
  end.

(** [params.toString()] *)
Fixpoint URLSearchParams_toString (p : URLSearchParams) : string :=
  match p with
  | [] => ""
  | [(k, v)] => urlencode k ++ "=" ++ urlencode v
  | (k, v) :: p' =>
      urlencode k ++ "=" ++ urlencode v ++ "&" ++ URLSearchParams_toString p'
  end.

(** What the module reads of a [URL] object. *)
Record URL : Type := {
  href : string;
  origin : string;
  searchParams : URLSearchParams
}.

Record Request : Type := {
  method : string;
  url : string;
  headers : list (string * string);
  body : option string
}.

(** A response, by what its [text()] and [json()] promises settle to;
    [json = None] is a body that is not JSON. *)
Record Response : Type := {
  text : string;
  json : option JSValue
}.

Inductive FetchOutcome : Type :=
| Rejected
| Responded (r : Response).

(** The platform the module runs on: [new URL(s)] ([None]: it throws a
    TypeError), which refuses the empty string, the network behind [fetch],
    and the random source of [uuidv4], as the sequence of identifiers it
    hands out. *)
Class Platform : Type := {
  URL_new : string -> option URL;
  fetch : Request -> FetchOutcome;
  uuidv4 : nat -> string;
  URL_new_empty : URL_new "" = None
}.

End Web.
Import Web.

(** ** Promises *)

Module Async.

(** What a run has done so far. *)
Record Env : Type := {
  issued : list Request;
  drawn : nat
}.

(** The run after one more request has gone out. *)
Definition sent (e : Env) (r : Request) : Env :=
  {| issued := issued e ++ [r]; drawn := drawn e |}.

Definition Async (A : Type) : Type := Env -> Completion A * Env.

Definition ret {A} (a : A) : Async A := fun e => (Normal a, e).

Definition throw {A} (err : JSError) : Async A := fun e => (Throw err, e).

Definition bind {A B} (m : Async A) (k : A -> Async B) : Async B :=
  fun e =>
    match m e with
    | (Normal a, e') => k a e'
    | (Throw err, e') => (Throw err, e')
    end.

(** A synchronous completion inside a promise. *)
Definition lift {A} (c : Completion A) : Async A := fun e => (c, e).

End Async.
Import Async.

Declare Scope async_scope.
Delimit Scope async_scope with async.
Notation "x <- m ;; k" := (bind m (fun x => k))
  (at level 61, m at next level, right associativity) : async_scope.
Open Scope async_scope.

(** ** The provider, [app/_auth/steam] *)

Module Provider.

Definition PROVIDER_NAME : string := "Steam".
Definition PROVIDER_ID : string := "steam".
Definition EMAIL_DOMAIN : string := "steamcommunity.com".

Record AuthorizationParams : Type := {
  auth_url : string;
  auth_params : JSObject
}.

Definition getAuthorizationParams (redirect realm : string)
  : AuthorizationParams :=
  {| auth_url := "https://steamcommunity.com/openid/login";
     auth_params :=
       [ ("openid.mode", "checkid_setup");
         ("openid.ns", "http://specs.openid.net/auth/2.0");
         ("openid.identity",
          "http://specs.openid.net/auth/2.0/identifier_select");
         ("openid.claimed_id",
          "http://specs.openid.net/auth/2.0/identifier_select");
         ("openid.return_to", redirect);
         ("openid.realm", realm) ] |}.

(** [new URL(s)] as a completion. *)
Definition new_URL `{Platform} (s : string) : Completion URL :=
  match URL_new s with
  | Some u => Normal u
  | None => Throw (TypeError "Invalid URL")
  end.

(** [await fetch(...)]: the request is recorded, then the promise settles. *)
Definition await_fetch `{Platform} (r : Request) : Async Response :=
  fun e =>
    let e' := sent e r in
    match fetch r with
    | Rejected => (Throw (TypeError "fetch failed"), e')
    | Responded resp => (Normal resp, e')
    end.

(** [await response.json()] *)
Definition await_json (r : Response) : Async JSValue :=
  match json r with
  | Some v => ret v
  | None => throw (SyntaxError "Unexpected token in JSON")
  end.

(** [uuidv4()] *)
Definition call_uuidv4 `{Platform} : Async string :=
  fun e => (Normal (uuidv4 (drawn e)),
            {| issued := issued e; drawn := S (drawn e) |}).

(** [searchParams.get(name) || ''] *)
Definition get_or_empty (searchParams : URLSearchParams) (name : string)
  : string :=
  or_empty (URLSearchParams_get searchParams name).

(** The loop of [verifyAssertion]: one assignment
    [token_params[`openid.${val}`] = searchParams.get(`openid.${val}`) || '']
    per element of [signed.split(',')]. *)
Definition token_params (searchParams : URLSearchParams) (signed : string)
  : JSObject :=
  fold_left
    (fun acc val =>
       obj_set acc ("openid." ++ val)
         (get_or_empty searchParams ("openid." ++ val)))
    (split "," signed) [].

(** [token_url_params]: the five literal properties, then [...token_params]. *)
Definition token_url_params (searchParams : URLSearchParams)
  : URLSearchParams :=
  let signed := get_or_empty searchParams "openid.signed" in
  URLSearchParams_of
    (obj_spread
       [ ("openid.assoc_handle",
          get_or_empty searchParams "openid.assoc_handle");
         ("openid.signed", signed);
         ("openid.sig", get_or_empty searchParams "openid.sig");
         ("openid.ns", "http://specs.openid.net/auth/2.0");
         ("openid.mode", "check_authentication") ]
       (token_params searchParams signed)).

(** [x.href] after [x = new URL(base); x.search = query]. *)
Definition with_search (base query : string) : string :=
  if is_empty query then base else base ++ "?" ++ query.

Definition decimal (n : nat) : string :=
  NilEmpty.string_of_uint (Nat.to_uint n).

(** The POST of [verifyAssertion] for the parameters of a callback. *)
Definition verification_request (searchParams : URLSearchParams) : Request :=
  let query := URLSearchParams_toString (token_url_params searchParams) in
  {| method := "POST";
     url := with_search "https://steamcommunity.com/openid/login" query;
     headers :=
       [ ("Accept-language", "en");
         ("Content-type", "application/x-www-form-urlencoded");
         ("Content-Length", decimal (String.length query)) ];
     body := Some query |}.

(** Verifies the OpenID authentication assertion: the claimed identifier if
    the user is authenticated, or null.  The [console.log] of the source
    is left out. *)
Definition verifyAssertion `{Platform} (url : string)
  : Async (option string) :=
  if is_empty url then ret None
  else
    parsed <- lift (new_URL url) ;;
    let searchParams := searchParams parsed in
    let token_url_params := token_url_params searchParams in
    token_res <- await_fetch (verification_request searchParams) ;;
    let result := text token_res in
    if is_valid_true result then
      match URLSearchParams_get token_url_params "openid.claimed_id" with
      | Some claimed_id => ret (IDENTIFIER_PATTERN claimed_id)
      | None => ret None
      end
    else ret None.

Record ProviderStyle : Type := {
  bg : string;
  text_color : string;
  bgDark : string;
  textDark : string
}.

Definition getProviderStyle : ProviderStyle :=
  {| bg := "#121212"; text_color := "#fff";
     bgDark := "#000"; textDark := "#fff" |}.

(** The request object, by its [url] ([string | undefined]). *)
Record IncomingRequest : Type := {
  req_url : option string
}.

Record SteamProviderOptions : Type := {
  callbackUrl : string;
  clientSecret : option string
}.

Record TokenSet : Type := {
  id_token : string;
  access_token : string;
  steamId : string
}.

Record TokenResult : Type := {
  tokens : TokenSet
}.

(** What [userinfo.request] reads of its context; a value that is
    [undefined] at run time is written as the text [undefined] into the
    query. *)
Record UserinfoContext : Type := {
  provider_clientSecret : option string;
  tokens_steamId : option string
}.

Definition to_query_value (x : option string) : string :=
  match x with
  | Some s => s
  | None => "undefined"
  end.

Record User : Type := {
  id : JSValue;
  name : JSValue;
  image : JSValue;
  personState : JSValue;
  communityVisibilityState : JSValue;
  accountCreated : JSValue
}.

(** [token.request()] of the provider built for [req]. *)
Definition token_request `{Platform} (req : IncomingRequest)
  : Async TokenResult :=
  match req_url req with
  | None => throw (Error "No URL found in request object")
  | Some u =>
      if is_empty u then throw (Error "No URL found in request object")
      else
        identifier <- verifyAssertion u ;;
        match identifier with
        | None => throw (Error "Unauthenticated")
        | Some i =>
            if is_empty i then throw (Error "Unauthenticated")
            else
              t1 <- call_uuidv4 ;;
              t2 <- call_uuidv4 ;;
              ret {| tokens := {| id_token := t1;
                                  access_token := t2;
                                  steamId := i |} |}
        end
  end.

(** The GET of [userinfo.request]. *)
Definition profile_request (context : UserinfoContext) : Request :=
  {| method := "GET";
     url :=
       with_search
         "https://api.steampowered.com/ISteamUser/GetPlayerSummaries/v0002"
         (URLSearchParams_toString
            [ ("key", to_query_value (provider_clientSecret context));
              ("steamids", to_query_value (tokens_steamId context)) ]);
     headers := [];
     body := None |}.

(** [userinfo.request(context)]: [data.response.players[0]]. *)
Definition userinfo_request `{Platform} (context : UserinfoContext)
  : Async JSValue :=
  response <- await_fetch (profile_request context) ;;
  data <- await_json response ;;
  r <- lift (member data "response") ;;
  players <- lift (member r "players") ;;
  lift (index0 players).

(** [profile(profile)] *)
Definition profile (p : JSValue) : Completion User :=
  match p with
  | JUndefined | JNull => Throw cannot_read
  | JObject o =>
      Normal {| id := own_property o "steamid";
                name := own_property o "personaname";
                image := own_property o "avatarfull";
                personState := own_property o "personastate";
                communityVisibilityState :=
                  own_property o "communityvisibilitystate";
                accountCreated := own_property o "timecreated" |}
  | _ =>
      Normal {| id := JUndefined; name := JUndefined; image := JUndefined;
                personState := JUndefined;
                communityVisibilityState := JUndefined;
                accountCreated := JUndefined |}
  end.

Record OAuthConfig : Type := {
  authorization : AuthorizationParams;
  token : Async TokenResult;
  userinfo : UserinfoContext -> Async JSValue;
  provider_id : string;
  provider_name : string;
  provider_type : string;
  idToken : bool;
  checks : list string;
  clientId : string;
  provider_profile : JSValue -> Completion User;
  options : SteamProviderOptions;
  style : ProviderStyle
}.

(** [!options.clientSecret || options.clientSecret.length < 1] *)
Definition secret_missing (o : SteamProviderOptions) : bool :=
  match clientSecret o with
  | None => true
  | Some s => is_empty s || Nat.ltb (String.length s) 1
  end.

(** [Steam(req, options)].  The function is synchronous; it is run in
    [Async] so that what it does on the network can be stated. *)
Definition Steam `{Platform} (req : IncomingRequest)
  (opts : SteamProviderOptions) : Async OAuthConfig :=
  parsed <- lift (new_URL (callbackUrl opts)) ;;
  let realm := origin parsed in
  let returnTo := href parsed ++ "/" ++ PROVIDER_ID in
  if secret_missing opts then throw (Error "Steam API key is missing")
  else
    ret {| authorization := getAuthorizationParams returnTo realm;
           token := token_request req;
           userinfo := userinfo_request;
           provider_id := PROVIDER_ID;
           provider_name := PROVIDER_NAME;
           provider_type := "oauth";
           idToken := false;
           checks := ["none"];
           clientId := PROVIDER_ID;
           provider_profile := profile;
           options := opts;
           style := getProviderStyle |}.

End Provider.
Import Provider.

(** ** A reference platform

    [URL_new] here follows the WHATWG URL parser on absolute URLs that are
    already in normal form (lower-case host, no credentials, no default port,
    no dot segments): leading and trailing C0 controls and spaces are
    dropped, tabs and newlines are removed, a string without a scheme is
    refused (there is no base URL), and the query is read with the
    application/x-www-form-urlencoded parser. *)

Module Reference.

Definition is_alpha (c : ascii) : bool :=
  in_range 65 90 c || in_range 97 122 c.

Definition scheme_char (c : ascii) : bool :=
  is_alpha c || is_digit c
  || Nat.eqb (code c) 43 || Nat.eqb (code c) 45 || Nat.eqb (code c) 46.

(** The scheme and what follows its colon. *)
Fixpoint scan_scheme (s : string) : option (string * string) :=
  match s with
  | EmptyString => None
  | String c r =>
      if Ascii.eqb c ":" then Some (EmptyString, r)
      else if scheme_char c then
        match scan_scheme r with
        | Some (sch, rest) => Some (String (fold_case c) sch, rest)
        | None => None
        end
      else None
  end.

Definition split_scheme (s : string) : option (string * string) :=
  match s with
  | String c _ => if is_alpha c then scan_scheme s else None
  | EmptyString => None
  end.

(** [s] up to the first [sep], and what follows it if there is one. *)
Fixpoint cut (sep : ascii) (s : string) : string * option string :=
  match s with
  | EmptyString => (EmptyString, None)
  | String c r =>
      if Ascii.eqb c sep then (EmptyString, Some r)
      else let (a, b) := cut sep r in (String c a, b)
  end.

Definition hex_value (c : ascii) : option nat :=
  if in_range 48 57 c then Some (code c - 48)
  else if in_range 65 70 c then Some (code c - 55)
  else if in_range 97 102 c then Some (code c - 87)
  else None.

Fixpoint percent_decode (s : string) : string :=
  match s with
  | EmptyString => EmptyString
  | String c r =>
      match r with
      | String h (String l r') =>
          match Ascii.eqb c "%", hex_value h, hex_value l with
          | true, Some a, Some b =>
              String (ascii_of_nat (16 * a + b)) (percent_decode r')
          | _, _, _ => String c (percent_decode r)
          end
      | _ => String c (percent_decode r)
      end
  end.

Fixpoint plus_to_space (s : string) : string :=
  match s with
  | EmptyString => EmptyString
  | String c r =>
      String (if Ascii.eqb c "+" then " "%char else c) (plus_to_space r)
  end.

Definition decode_component (s : string) : string :=
  percent_decode (plus_to_space s).

(** The application/x-www-form-urlencoded parser. *)
Definition parse_urlencoded (query : string) : URLSearchParams :=
  flat_map
    (fun piece =>
       if is_empty piece then []
       else let (k, v) := cut "=" piece in
            [(decode_component k, decode_component (or_empty v))])
    (split "&" query).

Fixpoint remove_tab_newline (s : string) : string :=
  match s with
  | EmptyString => EmptyString
  | String c r =>
      if Nat.eqb (code c) 9 || Nat.eqb (code c) 10 || Nat.eqb (code c) 13
      then remove_tab_newline r
      else String c (remove_tab_newline r)
  end.

Fixpoint trim_left (s : string) : string :=
  match s with
  | EmptyString => EmptyString
  | String c r => if Nat.leb (code c) 32 then trim_left r else s
  end.

Fixpoint trim_right (s : string) : string :=
  match s with
  | EmptyString => EmptyString
  | String c r =>
      match trim_right r with
      | EmptyString => if Nat.leb (code c) 32 then EmptyString
                       else String c EmptyString
      | r' => String c r'
      end
  end.

Definition is_special (scheme : string) : bool :=
  String.eqb scheme "http" || String.eqb scheme "https"
  || String.eqb scheme "ws" || String.eqb scheme "wss"
  || String.eqb scheme "ftp".

Definition whatwg_URL_new (input : string) : option URL :=
  let s := remove_tab_newline (trim_right (trim_left input)) in
  match split_scheme s with
  | None => None
  | Some (scheme, rest) =>
      let (before_fragment, fragment) := cut "#" rest in
      let (hier, query) := cut "?" before_fragment in
      let (authority, path) :=
        match hier with
        | String "/" (String "/" r) =>
            let (a, p) := cut "/" r in
            (Some a, match p with Some p' => String "/" p' | None => "/" end)
        | _ => (None, hier)
        end in
      Some
        {| href :=
             scheme ++ ":"
             ++ match authority with Some a => "//" ++ a | None => "" end
             ++ path
             ++ match query with Some q => "?" ++ q | None => "" end
             ++ match fragment with Some f => "#" ++ f | None => "" end;
           origin :=
             match authority with
             | Some a => if is_special scheme then scheme ++ "://" ++ a
                         else "null"
             | None => "null"
             end;
           searchParams := parse_urlencoded (or_empty query) |}
  end.

(** The platform whose network answers [reply] and whose [n]-th UUID is
    [uuid n]. *)
Definition whatwg (reply : Request -> FetchOutcome) (uuid : nat -> string)
  : Platform :=
  {| URL_new := whatwg_URL_new; fetch := reply; uuidv4 := uuid;
     URL_new_empty := eq_refl |}.

(** An identity provider that answers every request with the same text. *)
Definition answers (body : string) : Request -> FetchOutcome :=
  fun _ => Responded {| text := body; json := None |}.

(** A profile API that answers every request with the same JSON value. *)
Definition answers_json (v : JSValue) : Request -> FetchOutcome :=
  fun _ => Responded {| text := ""; json := Some v |}.

Definition no_network : Request -> FetchOutcome := fun _ => Rejected.

Definition uuid_of (n : nat) : string :=
  "00000000-0000-4000-8000-00000000" ++ decimal (1000 + n).

Definition start : Env := {| issued := []; drawn := 0 |}.

(** The URL object of a string that parses. *)
Definition parsed (s : string) : URL :=
  match whatwg_URL_new s with
  | Some u => u
  | None => {| href := ""; origin := "null"; searchParams := [] |}
  end.

Definition LF : string := String (ascii_of_nat 10) EmptyString.

(** The two answers of the provider to [check_authentication]. *)
Definition valid_body : string :=
  "ns:http://specs.openid.net/auth/2.0" ++ LF ++ "is_valid:true" ++ LF.

Definition invalid_body : string :=
  "ns:http://specs.openid.net/auth/2.0" ++ LF ++ "is_valid:false" ++ LF.

Definition accepting : Platform := whatwg (answers valid_body) uuid_of.

Definition refusing : Platform := whatwg (answers invalid_body) uuid_of.

(** A callback as the provider redirects to it. *)
Definition steam_callback : string :=
  "http://localhost:3000/api/auth/callback/steam"
  ++ "?openid.ns=http%3A%2F%2Fspecs.openid.net%2Fauth%2F2.0"
  ++ "&openid.mode=id_res"
  ++ "&openid.op_endpoint=https%3A%2F%2Fsteamcommunity.com%2Fopenid%2Flogin"
  ++ "&openid.claimed_id=https%3A%2F%2Fsteamcommunity.com%2Fopenid%2Fid%2F76561197960287930"
  ++ "&openid.identity=https%3A%2F%2Fsteamcommunity.com%2Fopenid%2Fid%2F76561197960287930"
  ++ "&openid.return_to=http%3A%2F%2Flocalhost%3A3000%2Fapi%2Fauth%2Fcallback%2Fsteam"
  ++ "&openid.response_nonce=2024-01-01T00%3A00%3A00Zabc"
  ++ "&openid.assoc_handle=1234567890"
  ++ "&openid.signed=signed%2Cop_endpoint%2Cclaimed_id%2Cidentity%2Creturn_to%2Cresponse_nonce%2Cassoc_handle"
  ++ "&openid.sig=c2lnbmF0dXJl".

(** A callback that names a field the request does not have, and one that
    carries a claimed identifier but no signed list. *)
Definition partial_callback : string :=
  "http://localhost:3000/api/auth/callback/steam"
  ++ "?openid.signed=claimed_id%2Creturn_to"
  ++ "&openid.claimed_id=https%3A%2F%2Fsteamcommunity.com%2Fopenid%2Fid%2F76561197960287930".

Definition unsigned_callback : string :=
  "http://localhost:3000/api/auth/callback/steam"
  ++ "?openid.mode=id_res"
  ++ "&openid.claimed_id=https%3A%2F%2Fsteamcommunity.com%2Fopenid%2Fid%2F76561197960287930".

(** A callback whose signed list names [mode] and [ns]. *)
Definition override_callback : string :=
  "http://localhost:3000/api/auth/callback/steam"
  ++ "?openid.signed=mode%2Cns"
  ++ "&openid.mode=id_res".

(** A callback with a signed claimed identifier of another site. *)
Definition evil_callback : string :=
  "http://localhost:3000/api/auth/callback/steam"
  ++ "?openid.signed=claimed_id"
  ++ "&openid.claimed_id=https%3A%2F%2Fevil.example%2Fopenid%2Fid%2F123".

(** A profile answer without players, and the profile API that gives it. *)
Definition no_players : JSValue :=
  JObject [("response", JObject [("players", JArray [])])].

Definition empty_profile_api : Platform :=
  whatwg (answers_json no_players) uuid_of.

Definition some_context : UserinfoContext :=
  {| provider_clientSecret := Some "0123456789ABCDEF0123456789ABCDEF";
     tokens_steamId := Some "76561197960287930" |}.

(** A deployment where neither [NEXTAUTH_URL] nor [STEAM_CLIENT_SECRET] is
    set. *)
Definition unconfigured : SteamProviderOptions :=
  {| callbackUrl := "undefined/api/auth/callback"; clientSecret := None |}.

Definition keyless : SteamProviderOptions :=
  {| callbackUrl := "http://localhost:3000/api/auth/callback";
     clientSecret := Some "" |}.

End Reference.
Import Reference.

(** ** The route handler, [app/api/auth/[...nextauth]/route] *)

Module Route.

(** What the handler reads of [process.env]. *)
Record ProcessEnv : Type := {
  NEXTAUTH_URL : option string;
  STEAM_CLIENT_SECRET : option string
}.

(** [`${x}`] for [x : string | undefined]. *)
Definition template (x : option string) : string :=
  match x with
  | Some s => s
  | None => "undefined"
  end.

(** The options literal that [auth] passes to [Steam]. *)
Definition steam_options (env : ProcessEnv) : SteamProviderOptions :=
  {| callbackUrl := template (NEXTAUTH_URL env) ++ "/api/auth/callback";
     clientSecret := STEAM_CLIENT_SECRET env |}.

(** The [providers] array of [auth], which is evaluated before [NextAuth]
    is called with it. *)
Definition providers `{Platform} (env : ProcessEnv) (req : IncomingRequest)
  : Async (list OAuthConfig) :=
  provider <- Steam req (steam_options env) ;;
  ret [provider].

End Route.
Import Route.

(** ** More sample data *)

Module Samples.

Definition gabe : JSValue :=
  JObject [ ("steamid", JString "76561197960287930");
            ("communityvisibilitystate", JNumber 3);
            ("personaname", JString "Rabscuttle");
            ("avatarfull",
             JString "https://avatars.steamstatic.com/c5d5_full.jpg");
            ("personastate", JNumber 0);
            ("timecreated", JNumber 1063407589) ].

Definition other_player : JSValue :=
  JObject [("steamid", JString "76561197960265731")].

Definition two_players : JSValue :=
  JObject [("response", JObject [("players", JArray [gabe; other_player])])].

Definition profile_api : Platform := whatwg (answers_json two_players) uuid_of.

(** An answer of the profile API that is JSON but has no [response]. *)
Definition forbidden_answer : JSValue := JObject [].

Definition broken_profile_api : Platform :=
  whatwg (answers_json forbidden_answer) uuid_of.


Definition configured : SteamProviderOptions :=
  {| callbackUrl := "http://localhost:3000/api/auth/callback";
     clientSecret := Some "0123456789ABCDEF0123456789ABCDEF" |}.

End Samples.
Import Samples.

Example split_empty : split "," "" = [""].
Proof. reflexivity. Qed.

Example split_steam :
  split "," "signed,op_endpoint,claimed_id" = ["signed"; "op_endpoint"; "claimed_id"].
Proof. reflexivity. Qed.

Example URL_new_relative : whatwg_URL_new "/api/auth/callback/steam?x=1" = None.
Proof. reflexivity. Qed.

Example URL_new_callback :
  whatwg_URL_new
    "http://localhost:3000/api/auth/callback/steam?openid.mode=id_res&openid.claimed_id=https%3A%2F%2Fsteamcommunity.com%2Fopenid%2Fid%2F76561197960287930&a+b=#f"
  = Some {| href := "http://localhost:3000/api/auth/callback/steam?openid.mode=id_res&openid.claimed_id=https%3A%2F%2Fsteamcommunity.com%2Fopenid%2Fid%2F76561197960287930&a+b=#f";
            origin := "http://localhost:3000";
            searchParams :=
              [ ("openid.mode", "id_res");
                ("openid.claimed_id",
                 "https://steamcommunity.com/openid/id/76561197960287930");
                ("a b", "") ] |}.
Proof. reflexivity. Qed.

Example identifier_ok :
  IDENTIFIER_PATTERN "https://steamcommunity.com/openid/id/76561197960287930"
  = Some "76561197960287930".
Proof. reflexivity. Qed.

Example identifier_evil :
  IDENTIFIER_PATTERN "https://evil.example/openid/id/123" = None.
Proof. reflexivity. Qed.

Example is_valid_examples :
  is_valid_true ("ns:http://specs.openid.net/auth/2.0" ++ String (ascii_of_nat 10) "is_valid:true" ++ String (ascii_of_nat 10) "") = true
  /\ is_valid_true "IS_VALID : TRUE" = true
  /\ is_valid_true "is_valid:false" = false.
Proof. repeat split; reflexivity. Qed.

(** ** Objects and search parameters *)

Section Objects.

Lemma URLSearchParams_get_obj (p : URLSearchParams) (k : string) :
  URLSearchParams_get p k = obj_get p k.
Proof.
  induction p as [|[k' v'] p IH]; simpl; [reflexivity|].
  now rewrite IH.
Qed.

Lemma obj_get_set_same (o : JSObject) (k v : string) :
  obj_get (obj_set o k v) k = Some v.
Proof.
  induction o as [|[k' v'] o IH]; simpl.
  - now rewrite String.eqb_refl.
  - destruct (String.eqb k' k) eqn:E; simpl; rewrite E; auto.
Qed.

Lemma obj_get_set_other (o : JSObject) (k v k0 : string) :
  k <> k0 -> obj_get (obj_set o k v) k0 = obj_get o k0.
Proof.
  intros Hne.
  induction o as [|[k' v'] o IH]; simpl.
  - apply String.eqb_neq in Hne. now rewrite Hne.
  - destruct (String.eqb k' k) eqn:E; simpl.
    + apply String.eqb_eq in E; subst k'.
      apply String.eqb_neq in Hne. now rewrite Hne.
    + now rewrite IH.
Qed.

Lemma obj_get_some_in (o : JSObject) (k v : string) :
  obj_get o k = Some v -> In (k, v) o.
Proof.
  induction o as [|[k' v'] o IH]; simpl; [discriminate|].
  destruct (String.eqb k' k) eqn:E.
  - apply String.eqb_eq in E. intros [= ->]. left. now subst.
  - intros H. right. now apply IH.
Qed.

Lemma obj_get_none_iff (o : JSObject) (k : string) :
  obj_get o k = None <-> ~ In k (map fst o).
Proof.
  induction o as [|[k' v'] o IH]; simpl.
  - tauto.
  - destruct (String.eqb k' k) eqn:E.
    + apply String.eqb_eq in E. split; [discriminate | tauto].
    + apply String.eqb_neq in E. tauto.
Qed.

(** Assigning a list of keys, each with the value [g] gives it. *)
Lemma obj_get_assign_keys (g : string -> string) (keys : list string) :
  forall (o : JSObject) (k : string),
    obj_get (fold_left (fun acc x => obj_set acc x (g x)) keys o) k
    = if in_dec string_dec k keys then Some (g k) else obj_get o k.
Proof.
  induction keys as [|x keys IH]; intros o k; simpl; [reflexivity|].
  rewrite IH.
  destruct (in_dec string_dec k keys) as [Hin|Hnin].
  - destruct (string_dec x k); reflexivity.
  - destruct (string_dec x k) as [->|Hne].
    + apply obj_get_set_same.
    + now apply obj_get_set_other.
Qed.

(** Spreading [src] over [o]: a key of [src] takes its value from [src]
    (here when [src] holds one value per key), any other key keeps it. *)
Lemma obj_get_spread (o src : JSObject) (k : string) :
  NoDup (map fst src) ->
  obj_get (obj_spread o src) k
  = match obj_get src k with
    | Some v => Some v
    | None => obj_get o k
    end.
Proof.
  unfold obj_spread. revert o.
  induction src as [|[k' v'] src IH]; intros o Hnd; simpl; [reflexivity|].
  inversion Hnd as [|? ? Hnotin Hnd']; subst.
  rewrite (IH _ Hnd').
  destruct (String.eqb k' k) eqn:E.
  - apply String.eqb_eq in E; subst k'.
    apply obj_get_none_iff in Hnotin. rewrite Hnotin.
    apply obj_get_set_same.
  - apply String.eqb_neq in E.
    now rewrite (obj_get_set_other o k' v' k E).
Qed.

Lemma obj_set_keys (o : JSObject) (k v : string) :
  map fst (obj_set o k v)
  = if in_dec string_dec k (map fst o) then map fst o
    else (map fst o ++ [k])%list.
Proof.
  induction o as [|[k' v'] o IH]; simpl; [reflexivity|].
  destruct (String.eqb k' k) eqn:E.
  - apply String.eqb_eq in E; subst k'.
    destruct (string_dec k k); [|congruence].
    reflexivity.
  - apply String.eqb_neq in E. simpl. rewrite IH.
    destruct (string_dec k' k); [congruence|].
    destruct (in_dec string_dec k (map fst o)); reflexivity.
Qed.

Lemma obj_set_NoDup (o : JSObject) (k v : string) :
  NoDup (map fst o) -> NoDup (map fst (obj_set o k v)).
Proof.
  intros Hnd. rewrite obj_set_keys.
  destruct (in_dec string_dec k (map fst o)) as [Hin|Hnin]; [assumption|].
  apply NoDup_app; [assumption | repeat constructor; auto | ].
  intros x Hx [->|[]]. contradiction.
Qed.

Lemma fold_obj_set_NoDup {A} (f : A -> string) (g : A -> string) (l : list A) :
  forall o : JSObject,
    NoDup (map fst o) ->
    NoDup (map fst (fold_left (fun acc x => obj_set acc (f x) (g x)) l o)).
Proof.
  induction l as [|x l IH]; intros o Hnd; simpl; [assumption|].
  apply IH. now apply obj_set_NoDup.
Qed.

End Objects.

(** ** The two patterns *)

Section Patterns.

Lemma literal_exact (lit s r : string) :
  literal false lit s = Some r -> s = lit ++ r.
Proof.
  revert s. induction lit as [|a lit IH]; intros s; simpl.
  - now intros [= ->].
  - destruct s as [|b s]; [discriminate|].
    destruct (Ascii.eqb a b) eqn:E; [|discriminate].
    apply Ascii.eqb_eq in E; subst b.
    intros H. now rewrite (IH _ H).
Qed.

Lemma digits_to_end_some (s d : string) :
  digits_to_end s = Some d -> d = s /\ s <> "" /\ all_digits s = true.
Proof.
  unfold digits_to_end.
  destruct s as [|c s]; simpl; [discriminate|].
  destruct (is_digit c && all_digits s) eqn:E; [|discriminate].
  intros [= <-]. split; [reflexivity|]. split; [discriminate | reflexivity].
Qed.

Lemma identifier_tail_some (s d : string) :
  identifier_tail s = Some d ->
  s = "://steamcommunity.com/openid/id/" ++ d
  /\ d <> "" /\ all_digits d = true.
Proof.
  unfold identifier_tail.
  destruct (literal false "://steamcommunity.com/openid/id/" s) as [r|] eqn:L;
    [|discriminate].
  intros H. apply digits_to_end_some in H. destruct H as (-> & Hne & Hd).
  apply literal_exact in L. auto.
Qed.

(** What a match of [IDENTIFIER_PATTERN] says about the whole string. *)
Lemma IDENTIFIER_PATTERN_shape (s d : string) :
  IDENTIFIER_PATTERN s = Some d ->
  (s = "http://steamcommunity.com/openid/id/" ++ d
   \/ s = "https://steamcommunity.com/openid/id/" ++ d)
  /\ d <> "" /\ all_digits d = true.
Proof.
  unfold IDENTIFIER_PATTERN.
  destruct (literal false "http" s) as [r|] eqn:L; [|discriminate].
  apply literal_exact in L. subst s.
  assert (Hplain : identifier_tail r = Some d ->
                   ("http" ++ r = "http://steamcommunity.com/openid/id/" ++ d
                    \/ "http" ++ r = "https://steamcommunity.com/openid/id/" ++ d)
                   /\ d <> "" /\ all_digits d = true).
  { intros H. apply identifier_tail_some in H. destruct H as (-> & ? & ?).
    split; [left; reflexivity | auto]. }
  destruct r as [|c r]; [exact Hplain|].
  destruct (Ascii.eqb c "s") eqn:Ec.
  - apply Ascii.eqb_eq in Ec; subst c.
    destruct (identifier_tail r) as [d'|] eqn:T.
    + intros [= ->]. apply identifier_tail_some in T.
      destruct T as (-> & ? & ?). split; [right; reflexivity | auto].
    + exact Hplain.
  - apply Ascii.eqb_neq in Ec.
    destruct c as [[] [] [] [] [] [] [] []]; try exact Hplain.
    congruence.
Qed.

Lemma is_valid_true_step (c : ascii) (s : string) :
  is_valid_true (String c s) = is_valid_here (String c s) || is_valid_true s.
Proof. reflexivity. Qed.

(** A body that contains [is_valid:true] matches the validity pattern. *)
Lemma is_valid_true_contains (before after : string) :
  is_valid_true (before ++ "is_valid:true" ++ after) = true.
Proof.
  induction before as [|c before IH].
  - reflexivity.
  - change (String c before ++ "is_valid:true" ++ after)
      with (String c (before ++ "is_valid:true" ++ after)).
    rewrite is_valid_true_step, IH. apply orb_true_r.
Qed.

End Patterns.

(** ** The verification request *)

Section VerificationRequest.

Variable searchParams : URLSearchParams.

Lemma token_params_fold (sg : string) :
  token_params searchParams sg
  = fold_left (fun acc x => obj_set acc x (get_or_empty searchParams x))
      (map (append "openid.") (split "," sg)) [].
Proof.
  unfold token_params. generalize (@nil (string * string)).
  induction (split "," sg) as [|n l IH]; intros o; simpl; [reflexivity|].
  apply IH.
Qed.

Lemma token_params_get (sg k : string) :
  obj_get (token_params searchParams sg) k
  = if in_dec string_dec k (map (append "openid.") (split "," sg))
    then Some (get_or_empty searchParams k) else None.
Proof.
  rewrite token_params_fold. apply obj_get_assign_keys.
Qed.

Lemma token_params_NoDup (sg : string) :
  NoDup (map fst (token_params searchParams sg)).
Proof.
  unfold token_params. apply fold_obj_set_NoDup. constructor.
Qed.

(** A field named in the signed list is in the request, with the value of
    the callback or the empty string. *)
Lemma token_url_params_echo (n : string) :
  In n (split "," (get_or_empty searchParams "openid.signed")) ->
  URLSearchParams_get (token_url_params searchParams) ("openid." ++ n)
  = Some (get_or_empty searchParams ("openid." ++ n)).
Proof.
  intros Hin. rewrite URLSearchParams_get_obj.
  unfold token_url_params, URLSearchParams_of.
  rewrite obj_get_spread by apply token_params_NoDup.
  rewrite token_params_get.
  destruct (in_dec string_dec _ _) as [_|Hn]; [reflexivity|].
  exfalso. apply Hn. now apply in_map.
Qed.

(** A key that no element of the signed list names keeps the value of the
    five literal properties. *)
Lemma token_url_params_literal (k : string) :
  ~ In k (map (append "openid.") (split "," (get_or_empty searchParams "openid.signed"))) ->
  URLSearchParams_get (token_url_params searchParams) k
  = obj_get
      [ ("openid.assoc_handle", get_or_empty searchParams "openid.assoc_handle");
        ("openid.signed", get_or_empty searchParams "openid.signed");
        ("openid.sig", get_or_empty searchParams "openid.sig");
        ("openid.ns", "http://specs.openid.net/auth/2.0");
        ("openid.mode", "check_authentication") ] k.
Proof.
  intros Hn. rewrite URLSearchParams_get_obj.
  unfold token_url_params, URLSearchParams_of.
  rewrite obj_get_spread by apply token_params_NoDup.
  rewrite token_params_get.
  destruct (in_dec string_dec _ _) as [Hin|_]; [contradiction|reflexivity].
Qed.

(** Without [openid.signed] the loop runs once, on the empty name. *)
Lemma token_url_params_unsigned :
  URLSearchParams_get searchParams "openid.signed" = None ->
  token_url_params searchParams
  = [ ("openid.assoc_handle", get_or_empty searchParams "openid.assoc_handle");
      ("openid.signed", "");
      ("openid.sig", get_or_empty searchParams "openid.sig");
      ("openid.ns", "http://specs.openid.net/auth/2.0");
      ("openid.mode", "check_authentication");
      ("openid.", get_or_empty searchParams "openid.") ].
Proof.
  intros Hs.
  assert (Hsigned : get_or_empty searchParams "openid.signed" = "")
    by (unfold get_or_empty; now rewrite Hs).
  unfold token_url_params. rewrite Hsigned. reflexivity.
Qed.

(** [openid.mode] and [openid.ns] are the constants of the code as long as
    the signed list names neither. *)
Lemma token_url_params_constants :
  ~ In "mode" (split "," (get_or_empty searchParams "openid.signed")) ->
  ~ In "ns" (split "," (get_or_empty searchParams "openid.signed")) ->
  URLSearchParams_get (token_url_params searchParams) "openid.mode"
  = Some "check_authentication"
  /\ URLSearchParams_get (token_url_params searchParams) "openid.ns"
     = Some "http://specs.openid.net/auth/2.0".
Proof.
  intros Hmode Hns.
  assert (Hkey : forall n,
    In ("openid." ++ n)
       (map (append "openid.")
            (split "," (get_or_empty searchParams "openid.signed"))) ->
    In n (split "," (get_or_empty searchParams "openid.signed"))).
  { intros n Hin. apply in_map_iff in Hin. destruct Hin as (x & Hx & Hin).
    simpl in Hx. injection Hx as ->. exact Hin. }
  split; rewrite token_url_params_literal; try reflexivity.
  - intros Hin. apply Hmode. now apply Hkey.
  - intros Hin. apply Hns. now apply Hkey.
Qed.

End VerificationRequest.

(** ** Runs of [verifyAssertion] *)

Section Runs.

Context `{Platform}.

Lemma URL_new_nonempty (url : string) (u : URL) :
  URL_new url = Some u -> url <> "".
Proof. intros Hu ->. rewrite URL_new_empty in Hu. discriminate. Qed.

Lemma verifyAssertion_empty (e : Env) :
  verifyAssertion "" e = (Normal None, e).
Proof. reflexivity. Qed.

Lemma verifyAssertion_invalid (url : string) (e : Env) :
  url <> "" -> URL_new url = None ->
  verifyAssertion url e = (Throw (TypeError "Invalid URL"), e).
Proof.
  intros Hne Hu. destruct url; [congruence|].
  unfold verifyAssertion, bind, lift, new_URL; simpl. now rewrite Hu.
Qed.

Lemma verifyAssertion_rejected (url : string) (u : URL) (e : Env) :
  URL_new url = Some u ->
  fetch (verification_request (searchParams u)) = Rejected ->
  verifyAssertion url e
  = (Throw (TypeError "fetch failed"),
     sent e (verification_request (searchParams u))).
Proof.
  intros Hu Hf. pose proof (URL_new_nonempty url u Hu) as Hne.
  destruct url; [congruence|].
  unfold verifyAssertion, bind, lift, new_URL, await_fetch; simpl.
  rewrite Hu, Hf. reflexivity.
Qed.

(** The run on a callback that parses, once the provider has answered. *)
Lemma verifyAssertion_responded (url : string) (u : URL) (resp : Response)
  (e : Env) :
  URL_new url = Some u ->
  fetch (verification_request (searchParams u)) = Responded resp ->
  verifyAssertion url e
  = (Normal
       (if is_valid_true (text resp) then
          match URLSearchParams_get (token_url_params (searchParams u))
                  "openid.claimed_id" with
          | Some claimed_id => IDENTIFIER_PATTERN claimed_id
          | None => None
          end
        else None),
     sent e (verification_request (searchParams u))).
Proof.
  intros Hu Hf. pose proof (URL_new_nonempty url u Hu) as Hne.
  destruct url; [congruence|].
  unfold verifyAssertion, bind, lift, new_URL, await_fetch, ret; simpl.
  rewrite Hu, Hf.
  destruct (is_valid_true (text resp)); [|reflexivity].
  destruct (URLSearchParams_get _ _); reflexivity.
Qed.

(** Every run that returns an identifier went through a parsed callback, an
    answer that matches the validity pattern and a claimed identifier of the
    request that matches the identifier pattern. *)
Lemma verifyAssertion_identifier (url : string) (e : Env) (i : string) :
  fst (verifyAssertion url e) = Normal (Some i) ->
  exists u resp claimed_id,
    URL_new url = Some u
    /\ fetch (verification_request (searchParams u)) = Responded resp
    /\ is_valid_true (text resp) = true
    /\ URLSearchParams_get (token_url_params (searchParams u))
         "openid.claimed_id" = Some claimed_id
    /\ IDENTIFIER_PATTERN claimed_id = Some i.
Proof.
  destruct (string_dec url "") as [->|Hne]; [discriminate|].
  destruct (URL_new url) as [u|] eqn:Hu.
  2:{ rewrite (verifyAssertion_invalid url e Hne Hu). discriminate. }
  destruct (fetch (verification_request (searchParams u))) as [|resp] eqn:Hf.
  { rewrite (verifyAssertion_rejected url u e Hu Hf). discriminate. }
  rewrite (verifyAssertion_responded url u resp e Hu Hf). simpl.
  destruct (is_valid_true (text resp)) eqn:Hv; [|discriminate].
  destruct (URLSearchParams_get _ _) as [c|] eqn:Hc; [|discriminate].
  intros [= Hp]. exists u, resp, c. auto.
Qed.

End Runs.

Example run_steam_callback :
  @verifyAssertion accepting steam_callback start
  = (Normal (Some "76561197960287930"),
     sent start
       {| method := "POST";
          url := "https://steamcommunity.com/openid/login?openid.assoc_handle=1234567890&openid.signed=signed%2Cop_endpoint%2Cclaimed_id%2Cidentity%2Creturn_to%2Cresponse_nonce%2Cassoc_handle&openid.sig=c2lnbmF0dXJl&openid.ns=http%3A%2F%2Fspecs.openid.net%2Fauth%2F2.0&openid.mode=check_authentication&openid.op_endpoint=https%3A%2F%2Fsteamcommunity.com%2Fopenid%2Flogin&openid.claimed_id=https%3A%2F%2Fsteamcommunity.com%2Fopenid%2Fid%2F76561197960287930&openid.identity=https%3A%2F%2Fsteamcommunity.com%2Fopenid%2Fid%2F76561197960287930&openid.return_to=http%3A%2F%2Flocalhost%3A3000%2Fapi%2Fauth%2Fcallback%2Fsteam&openid.response_nonce=2024-01-01T00%3A00%3A00Zabc";
          headers :=
            [ ("Accept-language", "en");
              ("Content-type", "application/x-www-form-urlencoded");
              ("Content-Length", "609") ];
          body := Some "openid.assoc_handle=1234567890&openid.signed=signed%2Cop_endpoint%2Cclaimed_id%2Cidentity%2Creturn_to%2Cresponse_nonce%2Cassoc_handle&openid.sig=c2lnbmF0dXJl&openid.ns=http%3A%2F%2Fspecs.openid.net%2Fauth%2F2.0&openid.mode=check_authentication&openid.op_endpoint=https%3A%2F%2Fsteamcommunity.com%2Fopenid%2Flogin&openid.claimed_id=https%3A%2F%2Fsteamcommunity.com%2Fopenid%2Fid%2F76561197960287930&openid.identity=https%3A%2F%2Fsteamcommunity.com%2Fopenid%2Fid%2F76561197960287930&openid.return_to=http%3A%2F%2Flocalhost%3A3000%2Fapi%2Fauth%2Fcallback%2Fsteam&openid.response_nonce=2024-01-01T00%3A00%3A00Zabc" |}).
Proof. vm_compute. reflexivity. Qed.

Example run_token_request :
  @token_request accepting {| req_url := Some steam_callback |} start
  = (Normal
       {| tokens :=
            {| id_token := "00000000-0000-4000-8000-000000001000";
               access_token := "00000000-0000-4000-8000-000000001001";
               steamId := "76561197960287930" |} |},
     {| issued :=
          [verification_request (searchParams (parsed steam_callback))];
        drawn := 2 |}).
Proof. vm_compute. reflexivity. Qed.

Example run_relative_callback :
  @token_request accepting
    {| req_url := Some "/api/auth/callback/steam?openid.mode=id_res" |} start
  = (Throw (TypeError "Invalid URL"), start).
Proof. reflexivity. Qed.

Example run_network_failure :
  fst (@verifyAssertion (whatwg no_network uuid_of) steam_callback start)
  = Throw (TypeError "fetch failed").
Proof. vm_compute. reflexivity. Qed.

Example run_Steam_authorization :
  match @Steam accepting {| req_url := Some steam_callback |}
          {| callbackUrl := "http://localhost:3000/api/auth/callback";
             clientSecret := Some "0123456789ABCDEF0123456789ABCDEF" |} start
  with
  | (Normal provider, e) =>
      e = start
      /\ obj_get (auth_params (authorization provider)) "openid.return_to"
         = Some "http://localhost:3000/api/auth/callback/steam"
      /\ obj_get (auth_params (authorization provider)) "openid.realm"
         = Some "http://localhost:3000"
  | (Throw _, _) => False
  end.
Proof. repeat split. Qed.

Example run_evil_callback :
  fst (@verifyAssertion accepting evil_callback start) = Normal None.
Proof. vm_compute. reflexivity. Qed.

(** ** Properties of the verifier *)

Section Verifier.

Context `{Platform}.

Lemma verifyAssertion_env (url : string) (u : URL) (e : Env) :
  URL_new url = Some u ->
  snd (verifyAssertion url e) = sent e (verification_request (searchParams u)).
Proof.
  intros Hu.
  destruct (fetch (verification_request (searchParams u))) as [|resp] eqn:Hf.
  - now rewrite (verifyAssertion_rejected url u e Hu Hf).
  - now rewrite (verifyAssertion_responded url u resp e Hu Hf).
Qed.

(** C2.  The verifier returns an identifier only when the answer of the
    identity provider matches [is_valid\s*:\s*true] (case-insensitive) and the
    [openid.claimed_id] of the outgoing verification request matches
    [https?://steamcommunity.com/openid/id/(\d+)], the identifier being the
    digits; so a claimed identifier of another shape, such as
    [https://evil.example/openid/id/123], never yields an identifier, even
    when the answer reports valid. *)
Theorem verifyAssertion_identifier_only_if (url : string) (e : Env)
  (i : string) :
  fst (verifyAssertion url e) = Normal (Some i) ->
  exists u resp claimed_id,
    URL_new url = Some u
    /\ fetch (verification_request (searchParams u)) = Responded resp
    /\ is_valid_true (text resp) = true
    /\ URLSearchParams_get (token_url_params (searchParams u))
         "openid.claimed_id" = Some claimed_id
    /\ IDENTIFIER_PATTERN claimed_id = Some i
    /\ (claimed_id = "http://steamcommunity.com/openid/id/" ++ i
        \/ claimed_id = "https://steamcommunity.com/openid/id/" ++ i)
    /\ i <> "" /\ all_digits i = true
    /\ claimed_id <> "https://evil.example/openid/id/123".
Proof.
  intros Hrun.
  destruct (verifyAssertion_identifier url e i Hrun)
    as (u & resp & c & Hu & Hf & Hv & Hc & Hp).
  exists u, resp, c.
  destruct (IDENTIFIER_PATTERN_shape c i Hp) as (Hshape & Hne & Hd).
  repeat (split; [assumption|]).
  intros ->. discriminate Hp.
Qed.

(** C3.  On a callback with a non-empty [openid.signed] list the verifier
    sends one verification request, and for every name [n] of the
    comma-separated list that request has the key [openid.n], with the value
    of the callback, or the empty string when the callback has no such
    parameter: the key is never left out. *)
Theorem signed_fields_echoed (url : string) (u : URL) (sg n : string)
  (e : Env) :
  URL_new url = Some u ->
  URLSearchParams_get (searchParams u) "openid.signed" = Some sg ->
  sg <> "" ->
  In n (split "," sg) ->
  issued (snd (verifyAssertion url e))
  = (issued e ++ [verification_request (searchParams u)])%list
  /\ body (verification_request (searchParams u))
     = Some (URLSearchParams_toString (token_url_params (searchParams u)))
  /\ URLSearchParams_get (token_url_params (searchParams u)) ("openid." ++ n)
     = Some (get_or_empty (searchParams u) ("openid." ++ n))
  /\ (URLSearchParams_get (searchParams u) ("openid." ++ n) = None ->
      URLSearchParams_get (token_url_params (searchParams u)) ("openid." ++ n)
      = Some "").
Proof.
  intros Hu Hsg _ Hin.
  assert (Hecho :
    URLSearchParams_get (token_url_params (searchParams u)) ("openid." ++ n)
    = Some (get_or_empty (searchParams u) ("openid." ++ n))).
  { apply token_url_params_echo. unfold get_or_empty at 1. now rewrite Hsg. }
  split; [now rewrite (verifyAssertion_env url u e Hu)|].
  split; [reflexivity|].
  split; [exact Hecho|].
  intros Habsent. rewrite Hecho. unfold get_or_empty. now rewrite Habsent.
Qed.

(** C7.  When the identity provider answers with a body that does not match
    [is_valid\s*:\s*true] (case-insensitive), [is_valid:false] for one, the
    verifier returns null: no identifier, and nothing thrown. *)
Theorem invalid_answer_no_identifier (url : string) (u : URL)
  (resp : Response) (e : Env) :
  URL_new url = Some u ->
  fetch (verification_request (searchParams u)) = Responded resp ->
  is_valid_true (text resp) = false ->
  fst (verifyAssertion url e) = Normal None
  /\ is_valid_true "is_valid:false" = false.
Proof.
  intros Hu Hf Hv. split; [|reflexivity].
  rewrite (verifyAssertion_responded url u resp e Hu Hf).
  simpl. now rewrite Hv.
Qed.

(** C6, amended.  On a callback whose [openid.signed] list names
    [claimed_id] and whose [openid.claimed_id] is
    [https://steamcommunity.com/openid/id/76561197960287930], and an answer
    that contains [is_valid:true], the verifier returns [76561197960287930];
    the claimed identifier it reads is the one of the outgoing verification
    request. *)
Theorem steam_round_trip (url : string) (u : URL) (sg : string)
  (resp : Response) (before after : string) (e : Env) :
  URL_new url = Some u ->
  URLSearchParams_get (searchParams u) "openid.signed" = Some sg ->
  In "claimed_id" (split "," sg) ->
  URLSearchParams_get (searchParams u) "openid.claimed_id"
  = Some "https://steamcommunity.com/openid/id/76561197960287930" ->
  fetch (verification_request (searchParams u)) = Responded resp ->
  text resp = before ++ "is_valid:true" ++ after ->
  fst (verifyAssertion url e) = Normal (Some "76561197960287930")
  /\ URLSearchParams_get (token_url_params (searchParams u))
       "openid.claimed_id"
     = Some "https://steamcommunity.com/openid/id/76561197960287930".
Proof.
  intros Hu Hsg Hin Hc Hf Ht.
  assert (Hout :
    URLSearchParams_get (token_url_params (searchParams u))
      "openid.claimed_id"
    = Some "https://steamcommunity.com/openid/id/76561197960287930").
  { change "openid.claimed_id" with ("openid." ++ "claimed_id").
    rewrite token_url_params_echo.
    - unfold get_or_empty. simpl. now rewrite Hc.
    - unfold get_or_empty at 1. now rewrite Hsg. }
  split; [|exact Hout].
  rewrite (verifyAssertion_responded url u resp e Hu Hf). simpl.
  rewrite Ht, is_valid_true_contains, Hout. reflexivity.
Qed.

End Verifier.

(** ** Properties of the provider *)

Section Adapter.

Context `{Platform}.

Lemma is_empty_false (s : string) : s <> "" -> is_empty s = false.
Proof. destruct s; [congruence | reflexivity]. Qed.

Lemma is_empty_false_inv (s : string) : is_empty s = false -> s <> "".
Proof. destruct s; [discriminate | discriminate]. Qed.

(** A token set only ever carries a non-empty identifier that the verifier
    returned for the URL of the request. *)
Lemma token_request_returns (req : IncomingRequest) (e : Env)
  (t : TokenResult) :
  fst (token_request req e) = Normal t ->
  steamId (tokens t) <> ""
  /\ exists url, req_url req = Some url
                 /\ fst (verifyAssertion url e)
                    = Normal (Some (steamId (tokens t))).
Proof.
  unfold token_request.
  destruct (req_url req) as [url|]; [|discriminate].
  destruct (is_empty url); [discriminate|].
  unfold bind.
  destruct (verifyAssertion url e) as [[[i|]|err] e'] eqn:Hrun;
    try discriminate.
  destruct (is_empty i) eqn:Hi; [discriminate|].
  unfold call_uuidv4, ret. simpl. intros [= <-]. simpl.
  split; [now apply is_empty_false_inv|].
  exists url. split; [reflexivity | now rewrite Hrun].
Qed.

(** C1, amended.  For every non-empty callback URL for which the verifier
    yields no identifier, [token.request] throws [Unauthenticated] and
    returns no token set; and whatever the request, a token set that
    [token.request] returns has a non-empty provider id. *)
Theorem token_request_unauthenticated (req : IncomingRequest) (url : string)
  (e : Env) :
  req_url req = Some url ->
  url <> "" ->
  fst (verifyAssertion url e) = Normal None ->
  token_request req e
  = (Throw (Error "Unauthenticated"), snd (verifyAssertion url e))
  /\ (forall t, fst (token_request req e) <> Normal t)
  /\ (forall req' e' t,
        fst (token_request req' e') = Normal t -> steamId (tokens t) <> "").
Proof.
  intros Hreq Hne Hrun.
  assert (Htok : token_request req e
                 = (Throw (Error "Unauthenticated"),
                    snd (verifyAssertion url e))).
  { unfold token_request. rewrite Hreq, (is_empty_false url Hne).
    unfold bind. destruct (verifyAssertion url e) as [c e'].
    simpl in Hrun. subst c. reflexivity. }
  split; [exact Htok|]. split.
  - intros t. rewrite Htok. discriminate.
  - intros req' e' t Ht. now apply token_request_returns in Ht.
Qed.

(** C10, amended.  When the request has no URL, or an empty one,
    [token.request] throws the error [No URL found in request object] before
    it calls the verifier; the verifier itself, given the empty URL, returns
    null as for any failed verification.  Neither issues a request. *)
Theorem missing_callback (req : IncomingRequest) (e : Env) :
  req_url req = None \/ req_url req = Some "" ->
  token_request req e = (Throw (Error "No URL found in request object"), e)
  /\ verifyAssertion "" e = (Normal None, e).
Proof.
  intros [Hreq|Hreq]; unfold token_request; rewrite Hreq;
    (split; reflexivity).
Qed.

(** C8, amended.  For every configuration whose secret is absent or empty,
    [Steam] throws and leaves the network untouched: the error is
    [Steam API key is missing] when the callback URL of the configuration
    parses, and the TypeError of the URL constructor, which runs first,
    when it does not. *)
Theorem Steam_missing_secret (req : IncomingRequest)
  (opts : SteamProviderOptions) (e : Env) :
  clientSecret opts = None \/ clientSecret opts = Some "" ->
  Steam req opts e
  = (Throw (match URL_new (callbackUrl opts) with
            | Some _ => Error "Steam API key is missing"
            | None => TypeError "Invalid URL"
            end), e).
Proof.
  intros Hs.
  assert (Hmiss : secret_missing opts = true)
    by (unfold secret_missing; destruct Hs as [-> | ->]; reflexivity).
  unfold Steam, bind, lift, new_URL.
  destruct (URL_new (callbackUrl opts)); [|reflexivity].
  now rewrite Hmiss.
Qed.

(** C9, amended.  For every profile answer whose players collection is
    empty, [userinfo.request] resolves to undefined, the first element of an
    empty array: it throws nothing and returns no record. *)
Theorem userinfo_empty_players (context : UserinfoContext) (resp : Response)
  (data r : JSValue) (e : Env) :
  fetch (profile_request context) = Responded resp ->
  json resp = Some data ->
  member data "response" = Normal r ->
  member r "players" = Normal (JArray []) ->
  userinfo_request context e
  = (Normal JUndefined, sent e (profile_request context)).
Proof.
  intros Hf Hj Hr Hp.
  unfold userinfo_request, bind, await_fetch, await_json, lift, ret.
  rewrite Hf, Hj, Hr, Hp. reflexivity.
Qed.

End Adapter.

(** ** The properties at work *)

Lemma verifyAssertion_identifier_only_if_witness :
  exists u resp claimed_id,
    whatwg_URL_new steam_callback = Some u
    /\ answers valid_body (verification_request (searchParams u))
       = Responded resp
    /\ is_valid_true (text resp) = true
    /\ URLSearchParams_get (token_url_params (searchParams u))
         "openid.claimed_id" = Some claimed_id
    /\ IDENTIFIER_PATTERN claimed_id = Some "76561197960287930"
    /\ (claimed_id = "http://steamcommunity.com/openid/id/76561197960287930"
        \/ claimed_id
           = "https://steamcommunity.com/openid/id/76561197960287930")
    /\ "76561197960287930" <> ""
    /\ all_digits "76561197960287930" = true
    /\ claimed_id <> "https://evil.example/openid/id/123".
Proof.
  apply (@verifyAssertion_identifier_only_if accepting steam_callback start
           "76561197960287930").
  vm_compute. reflexivity.
Defined.

Lemma signed_fields_echoed_witness :
  URLSearchParams_get (searchParams (parsed partial_callback))
    "openid.return_to" = None
  /\ issued (snd (@verifyAssertion refusing partial_callback start))
     = [verification_request (searchParams (parsed partial_callback))]
  /\ URLSearchParams_get
       (token_url_params (searchParams (parsed partial_callback)))
       "openid.return_to" = Some "".
Proof.
  assert (Habsent :
    URLSearchParams_get (searchParams (parsed partial_callback))
      "openid.return_to" = None) by (vm_compute; reflexivity).
  destruct (@signed_fields_echoed refusing partial_callback
              (parsed partial_callback) "claimed_id,return_to" "return_to"
              start)
    as (Hsent & _ & _ & Hempty).
  - vm_compute. reflexivity.
  - vm_compute. reflexivity.
  - discriminate.
  - simpl. auto.
  - split; [exact Habsent|].
    split; [exact Hsent | exact (Hempty Habsent)].
Defined.

Lemma invalid_answer_no_identifier_witness :
  fst (@verifyAssertion refusing steam_callback start) = Normal None
  /\ is_valid_true "is_valid:false" = false.
Proof.
  apply (@invalid_answer_no_identifier refusing steam_callback
           (parsed steam_callback)
           {| text := invalid_body; json := None |} start).
  - vm_compute. reflexivity.
  - reflexivity.
  - vm_compute. reflexivity.
Defined.

Lemma steam_round_trip_witness :
  fst (@verifyAssertion accepting steam_callback start)
  = Normal (Some "76561197960287930")
  /\ URLSearchParams_get
       (token_url_params (searchParams (parsed steam_callback)))
       "openid.claimed_id"
     = Some "https://steamcommunity.com/openid/id/76561197960287930".
Proof.
  apply (@steam_round_trip accepting steam_callback (parsed steam_callback)
           "signed,op_endpoint,claimed_id,identity,return_to,response_nonce,assoc_handle"
           {| text := valid_body; json := None |}
           ("ns:http://specs.openid.net/auth/2.0" ++ LF) LF start).
  - vm_compute. reflexivity.
  - vm_compute. reflexivity.
  - simpl. auto.
  - vm_compute. reflexivity.
  - reflexivity.
  - reflexivity.
Defined.

(** A callback that carries the claimed identifier without naming it in a
    signed list: the request has no [openid.claimed_id], and the verifier
    returns null although the answer contains [is_valid:true]. *)
Lemma steam_round_trip_counterexample :
  whatwg_URL_new unsigned_callback = Some (parsed unsigned_callback)
  /\ URLSearchParams_get (searchParams (parsed unsigned_callback))
       "openid.claimed_id"
     = Some "https://steamcommunity.com/openid/id/76561197960287930"
  /\ valid_body
     = ("ns:http://specs.openid.net/auth/2.0" ++ LF) ++ "is_valid:true" ++ LF
  /\ URLSearchParams_get
       (token_url_params (searchParams (parsed unsigned_callback)))
       "openid.claimed_id" = None
  /\ fst (@verifyAssertion accepting unsigned_callback start) = Normal None.
Proof. repeat split; vm_compute; reflexivity. Qed.

Lemma token_request_unauthenticated_witness :
  @token_request refusing {| req_url := Some steam_callback |} start
  = (Throw (Error "Unauthenticated"),
     snd (@verifyAssertion refusing steam_callback start))
  /\ (forall t,
        fst (@token_request refusing {| req_url := Some steam_callback |}
               start) <> Normal t)
  /\ (forall req' e' t,
        fst (@token_request refusing req' e') = Normal t ->
        steamId (tokens t) <> "").
Proof.
  apply (@token_request_unauthenticated refusing
           {| req_url := Some steam_callback |} steam_callback start).
  - reflexivity.
  - discriminate.
  - vm_compute. reflexivity.
Defined.

(** The empty URL: the verifier yields no identifier, and [token.request]
    throws another error than [Unauthenticated]. *)
Lemma token_request_unauthenticated_counterexample :
  fst (@verifyAssertion refusing "" start) = Normal None
  /\ fst (@token_request refusing {| req_url := Some "" |} start)
     = Throw (Error "No URL found in request object")
  /\ fst (@token_request refusing {| req_url := Some "" |} start)
     <> Throw (Error "Unauthenticated").
Proof. repeat split. discriminate. Qed.

Lemma missing_callback_witness :
  @token_request refusing {| req_url := None |} start
  = (Throw (Error "No URL found in request object"), start)
  /\ @verifyAssertion refusing "" start = (Normal None, start).
Proof.
  apply (@missing_callback refusing {| req_url := None |} start).
  left. reflexivity.
Defined.

(** The verifier on the empty URL returns null, as it does on a callback
    that the identity provider refuses; it throws nothing. *)
Lemma missing_callback_counterexample :
  @verifyAssertion refusing "" start = (Normal None, start)
  /\ fst (@verifyAssertion refusing steam_callback start) = Normal None
  /\ (forall err, fst (@verifyAssertion refusing "" start) <> Throw err).
Proof.
  split; [reflexivity|]. split; [vm_compute; reflexivity|].
  intros err. discriminate.
Qed.

Lemma Steam_missing_secret_witness :
  @Steam refusing {| req_url := Some steam_callback |} keyless start
  = (Throw (Error "Steam API key is missing"), start).
Proof.
  apply (@Steam_missing_secret refusing {| req_url := Some steam_callback |}
           keyless start).
  right. reflexivity.
Defined.

(** Without a secret and with a callback URL that does not parse, [Steam]
    throws the TypeError of [new URL], not the error of the missing key. *)
Lemma Steam_missing_secret_counterexample :
  clientSecret unconfigured = None
  /\ @Steam refusing {| req_url := Some steam_callback |} unconfigured start
     = (Throw (TypeError "Invalid URL"), start)
  /\ fst (@Steam refusing {| req_url := Some steam_callback |} unconfigured
            start)
     <> Throw (Error "Steam API key is missing").
Proof. repeat split. discriminate. Qed.

Lemma userinfo_empty_players_witness :
  @userinfo_request empty_profile_api some_context start
  = (Normal JUndefined, sent start (profile_request some_context)).
Proof.
  apply (@userinfo_empty_players empty_profile_api some_context
           {| text := ""; json := Some no_players |} no_players
           (JObject [("players", JArray [])]) start); reflexivity.
Defined.

(** A profile answer with an empty players collection: [userinfo.request]
    resolves, to undefined, and throws nothing. *)
Lemma userinfo_empty_players_counterexample :
  json {| text := ""; json := Some no_players |}
  = Some (JObject [("response", JObject [("players", JArray [])])])
  /\ fst (@userinfo_request empty_profile_api some_context start)
     = Normal JUndefined
  /\ (forall err,
        fst (@userinfo_request empty_profile_api some_context start)
        <> Throw err).
Proof.
  split; [reflexivity|]. split; [reflexivity|]. intros err. discriminate.
Qed.

(** C4.  The code at a callback without [openid.signed]: [''.split(',')] is
    [['']], so the loop runs once and the verification request has a sixth
    parameter, [openid.], next to [openid.assoc_handle], [openid.signed],
    [openid.sig], [openid.ns] and [openid.mode]. *)
Theorem unsigned_request_extra_field :
  whatwg_URL_new unsigned_callback = Some (parsed unsigned_callback)
  /\ URLSearchParams_get (searchParams (parsed unsigned_callback))
       "openid.signed" = None
  /\ map fst (token_url_params (searchParams (parsed unsigned_callback)))
     = [ "openid.assoc_handle"; "openid.signed"; "openid.sig"; "openid.ns";
         "openid.mode"; "openid." ]
  /\ map body (issued (snd (@verifyAssertion refusing unsigned_callback start)))
     = [ Some "openid.assoc_handle=&openid.signed=&openid.sig=&openid.ns=http%3A%2F%2Fspecs.openid.net%2Fauth%2F2.0&openid.mode=check_authentication&openid.=" ].
Proof. repeat split; vm_compute; reflexivity. Qed.

(** C5.  The code at a callback whose signed list names [mode] and [ns]:
    [...token_params] comes after the literal properties, so the request
    carries the [openid.mode] of the callback and an empty [openid.ns]
    instead of [check_authentication] and the OpenID 2.0 namespace. *)
Theorem signed_mode_overrides :
  whatwg_URL_new override_callback = Some (parsed override_callback)
  /\ searchParams (parsed override_callback)
     = [("openid.signed", "mode,ns"); ("openid.mode", "id_res")]
  /\ URLSearchParams_get
       (token_url_params (searchParams (parsed override_callback)))
       "openid.mode" = Some "id_res"
  /\ URLSearchParams_get
       (token_url_params (searchParams (parsed override_callback)))
       "openid.ns" = Some ""
  /\ map body (issued (snd (@verifyAssertion refusing override_callback start)))
     = [ Some "openid.assoc_handle=&openid.signed=mode%2Cns&openid.sig=&openid.ns=&openid.mode=id_res" ].
Proof. repeat split; vm_compute; reflexivity. Qed.

(** ** Further properties of the verification request *)

Section RequestShape.

Variable searchParams : URLSearchParams.

Lemma fold_obj_set_keys {A} (f g : A -> string) (l : list A) :
  forall o : JSObject,
    exists rest,
      map fst (fold_left (fun acc x => obj_set acc (f x) (g x)) l o)
      = (map fst o ++ rest)%list
      /\ forall k, In k rest -> In k (map f l).
Proof.
  induction l as [|x l IH]; intros o; simpl.
  - exists []. split; [now rewrite app_nil_r | intros k []].
  - destruct (IH (obj_set o (f x) (g x))) as (rest & Hkeys & Hin).
    rewrite obj_set_keys in Hkeys.
    destruct (in_dec string_dec (f x) (map fst o)).
    + exists rest. split; [exact Hkeys | auto].
    + exists (f x :: rest). split.
      * rewrite Hkeys, <- app_assoc. reflexivity.
      * intros k [<-|Hk]; auto.
Qed.

Lemma token_params_keys (sg k : string) :
  In k (map fst (token_params searchParams sg)) ->
  exists n, In n (split "," sg) /\ k = "openid." ++ n.
Proof.
  unfold token_params. intros Hin.
  destruct (fold_obj_set_keys (fun val => "openid." ++ val)
              (fun val => get_or_empty searchParams ("openid." ++ val))
              (split "," sg) []) as (rest & Hkeys & Hrest).
  rewrite Hkeys in Hin. simpl in Hin. apply Hrest in Hin.
  apply in_map_iff in Hin. destruct Hin as (n & <- & Hn). eauto.
Qed.

(** X1.  The parameter names of the verification request are the five
    literal names, in the order of the source, followed by names
    [openid.n] for [n] in the signed list; no name occurs twice, so a
    callback parameter that the signed list does not name is never sent. *)
Theorem token_url_params_names :
  exists rest,
    map fst (token_url_params searchParams)
    = ([ "openid.assoc_handle"; "openid.signed"; "openid.sig"; "openid.ns";
         "openid.mode" ] ++ rest)%list
    /\ NoDup (map fst (token_url_params searchParams))
    /\ forall k, In k rest ->
         exists n,
           In n (split "," (get_or_empty searchParams "openid.signed"))
           /\ k = "openid." ++ n.
Proof.
  unfold token_url_params, URLSearchParams_of, obj_spread.
  match goal with
  | |- context [fold_left _ ?src ?o] =>
      destruct (fold_obj_set_keys fst snd src o) as (rest & Hkeys & Hrest)
  end.
  exists rest. split; [exact Hkeys|]. split.
  - apply fold_obj_set_NoDup. simpl.
    repeat (constructor; [simpl; intuition discriminate|]). constructor.
  - intros k Hk. apply token_params_keys. auto.
Qed.

(** X2.  Every parameter of the verification request other than
    [openid.ns] and [openid.mode] has the value the callback gives for that
    name (the first one when the callback repeats it), or the empty string;
    [openid.ns] and [openid.mode] have that value or the constant of the
    source. *)
Theorem token_url_params_values (k v : string) :
  URLSearchParams_get (token_url_params searchParams) k = Some v ->
  v = get_or_empty searchParams k
  \/ (k = "openid.ns" /\ v = "http://specs.openid.net/auth/2.0")
  \/ (k = "openid.mode" /\ v = "check_authentication").
Proof.
  rewrite URLSearchParams_get_obj.
  unfold token_url_params, URLSearchParams_of.
  rewrite obj_get_spread by apply token_params_NoDup.
  rewrite token_params_get.
  destruct (in_dec string_dec _ _) as [_|_]; [intros [= <-]; now left|].
  cbn [obj_get].
  repeat match goal with
         | |- context [String.eqb ?a k] =>
             let E := fresh "E" in
             destruct (String.eqb a k) eqn:E;
             [apply String.eqb_eq in E; subst k; intros [= <-]; auto|]
         end.
  discriminate.
Qed.

(** X3.  Whatever the signed list names, the request has the five protocol
    parameters, and [openid.assoc_handle], [openid.signed] and [openid.sig]
    are those of the callback, or empty: echoing a signed field never
    changes them. *)
Theorem token_url_params_protocol :
  URLSearchParams_get (token_url_params searchParams) "openid.assoc_handle"
  = Some (get_or_empty searchParams "openid.assoc_handle")
  /\ URLSearchParams_get (token_url_params searchParams) "openid.signed"
     = Some (get_or_empty searchParams "openid.signed")
  /\ URLSearchParams_get (token_url_params searchParams) "openid.sig"
     = Some (get_or_empty searchParams "openid.sig")
  /\ (exists ns,
        URLSearchParams_get (token_url_params searchParams) "openid.ns"
        = Some ns)
  /\ (exists mode,
        URLSearchParams_get (token_url_params searchParams) "openid.mode"
        = Some mode).
Proof.
  assert (Hget : forall k,
    URLSearchParams_get (token_url_params searchParams) k
    = if in_dec string_dec k
           (map (append "openid.")
              (split "," (get_or_empty searchParams "openid.signed")))
      then Some (get_or_empty searchParams k)
      else obj_get
             [ ("openid.assoc_handle",
                get_or_empty searchParams "openid.assoc_handle");
               ("openid.signed", get_or_empty searchParams "openid.signed");
               ("openid.sig", get_or_empty searchParams "openid.sig");
               ("openid.ns", "http://specs.openid.net/auth/2.0");
               ("openid.mode", "check_authentication") ] k).
  { intros k. rewrite URLSearchParams_get_obj.
    unfold token_url_params, URLSearchParams_of.
    rewrite obj_get_spread by apply token_params_NoDup.
    rewrite token_params_get.
    destruct (in_dec string_dec _ _); reflexivity. }
  repeat split; rewrite Hget;
    destruct (in_dec string_dec _ _); try reflexivity;
    eexists; reflexivity.
Qed.

End RequestShape.

(** ** Further properties of the two patterns *)

Section PatternSpecs.

Lemma all_digits_tail (d : string) :
  d <> "" -> all_digits d = true -> digits_to_end d = Some d.
Proof.
  intros Hne Hd. unfold digits_to_end.
  destruct d; [congruence|]. simpl in *. now rewrite Hd.
Qed.

Lemma IDENTIFIER_PATTERN_accepts (d : string) :
  d <> "" -> all_digits d = true ->
  IDENTIFIER_PATTERN ("http://steamcommunity.com/openid/id/" ++ d) = Some d
  /\ IDENTIFIER_PATTERN ("https://steamcommunity.com/openid/id/" ++ d)
     = Some d.
Proof.
  intros Hne Hd. pose proof (all_digits_tail d Hne Hd) as Ht.
  unfold IDENTIFIER_PATTERN, identifier_tail. simpl. rewrite Ht. auto.
Qed.

(** X4.  [IDENTIFIER_PATTERN] matches exactly the strings
    [http://steamcommunity.com/openid/id/] or
    [https://steamcommunity.com/openid/id/] followed by one or more ASCII
    digits up to the end, and its group is these digits: nothing may come
    before the scheme or after the digits. *)
Theorem IDENTIFIER_PATTERN_spec (s d : string) :
  IDENTIFIER_PATTERN s = Some d
  <-> (s = "http://steamcommunity.com/openid/id/" ++ d
       \/ s = "https://steamcommunity.com/openid/id/" ++ d)
      /\ d <> "" /\ all_digits d = true.
Proof.
  split; [apply IDENTIFIER_PATTERN_shape|].
  intros ([-> | ->] & Hne & Hd);
    now destruct (IDENTIFIER_PATTERN_accepts d Hne Hd).
Qed.

Lemma literal_app (ci : bool) (lit x r : string) :
  literal ci lit x = Some "" -> literal ci lit (x ++ r) = Some r.
Proof.
  revert x. induction lit as [|a lit IH]; intros x; simpl.
  - now intros [= ->].
  - destruct x as [|b x]; [discriminate|]. simpl.
    destruct (if ci then _ else _); [apply IH | discriminate].
Qed.

Lemma literal_split (ci : bool) (lit s r : string) :
  literal ci lit s = Some r ->
  exists x, s = x ++ r /\ literal ci lit x = Some "".
Proof.
  revert s. induction lit as [|a lit IH]; intros s; simpl.
  - intros [= ->]. now exists "".
  - destruct s as [|b s]; [discriminate|].
    destruct (if ci then _ else _) eqn:E; [|discriminate].
    intros Hl. destruct (IH _ Hl) as (x & -> & Hx).
    exists (String b x). split; [reflexivity|]. simpl. now rewrite E.
Qed.

Lemma spaces_app_bounded (n : nat) :
  forall ws r, String.length ws <= n ->
               spaces ws = "" -> spaces (ws ++ r) = spaces r.
Proof.
  induction n as [|n IH]; intros ws r Hlen.
  - destruct ws; [reflexivity | simpl in Hlen; lia].
  - destruct ws as [|a ws]; [reflexivity|].
    simpl in Hlen. simpl.
    destruct (space1 a). { intros Hs. apply IH; [lia | exact Hs]. }
    destruct ws as [|b ws]; [discriminate|]. simpl in Hlen. simpl.
    destruct (space2 a b). { intros Hs. apply IH; [lia | exact Hs]. }
    destruct ws as [|c ws]; [discriminate|]. simpl in Hlen. simpl.
    destruct (space3 a b c); [|discriminate].
    intros Hs. apply IH; [lia | exact Hs].
Qed.

Lemma spaces_app (ws r : string) :
  spaces ws = "" -> spaces (ws ++ r) = spaces r.
Proof. apply (spaces_app_bounded (String.length ws)). lia. Qed.

Lemma spaces_split_bounded (n : nat) :
  forall s, String.length s <= n ->
            exists ws, s = ws ++ spaces s /\ spaces ws = "".
Proof.
  induction n as [|n IH]; intros s Hlen.
  - destruct s; [now exists "" | simpl in Hlen; lia].
  - destruct s as [|a s]; [now exists ""|].
    simpl in Hlen. simpl.
    destruct (space1 a) eqn:E1.
    { destruct (IH s) as (ws & Hs & Hws); [lia|].
      exists (String a ws). split; [simpl; now rewrite <- Hs|].
      simpl. now rewrite E1. }
    destruct s as [|b s]; [now exists ""|]. simpl in Hlen.
    destruct (space2 a b) eqn:E2.
    { destruct (IH s) as (ws & Hs & Hws); [lia|].
      exists (String a (String b ws)). split; [simpl; now rewrite <- Hs|].
      simpl. now rewrite E1, E2. }
    destruct s as [|c s]; [now exists ""|]. simpl in Hlen.
    destruct (space3 a b c) eqn:E3; [|now exists ""].
    destruct (IH s) as (ws & Hs & Hws); [lia|].
    exists (String a (String b (String c ws))).
    split; [simpl; now rewrite <- Hs|].
    simpl. now rewrite E1, E2, E3.
Qed.

Lemma spaces_split (s : string) :
  exists ws, s = ws ++ spaces s /\ spaces ws = "".
Proof. apply (spaces_split_bounded (String.length s)). lia. Qed.

(** An ASCII character that is not white space ends a run of [\s]. *)
Lemma spaces_stop (c : ascii) (r : string) :
  space1 c = false -> Nat.ltb (code c) 128 = true ->
  spaces (String c r) = String c r.
Proof.
  intros H1 Hc. apply Nat.ltb_lt in Hc.
  assert (H2 : forall b, space2 c b = false).
  { intros b. unfold space2.
    destruct (Nat.eqb_spec (code c) 194); [lia | reflexivity]. }
  assert (H3 : forall b d, space3 c b d = false).
  { intros b d. unfold space3.
    destruct (Nat.eqb_spec (code c) 225); [lia|].
    destruct (Nat.eqb_spec (code c) 226); [lia|].
    destruct (Nat.eqb_spec (code c) 227); [lia|].
    destruct (Nat.eqb_spec (code c) 239); [lia|]. reflexivity. }
  simpl. rewrite H1.
  destruct r as [|b r]; [reflexivity|]. rewrite H2.
  destruct r as [|d r]; [reflexivity|]. now rewrite H3.
Qed.

Lemma spaces_stop_true (y r : string) :
  literal true "true" y = Some "" -> spaces (y ++ r) = y ++ r.
Proof.
  destruct y as [|c y]; [discriminate|].
  change (literal true "true" (String c y))
    with (if Ascii.eqb (fold_case "t") (fold_case c)
          then literal true "rue" y else None).
  destruct (Ascii.eqb (fold_case "t") (fold_case c)) eqn:E; [|discriminate].
  intros _. change (String c y ++ r) with (String c (y ++ r)).
  apply spaces_stop;
    destruct c as [[] [] [] [] [] [] [] []]; try reflexivity;
    vm_compute in E; discriminate.
Qed.

Lemma is_valid_here_true (s : string) :
  is_valid_here s = true -> is_valid_true s = true.
Proof.
  intros Hs. destruct s; [discriminate Hs|].
  rewrite is_valid_true_step, Hs. reflexivity.
Qed.

(** X5.  The validity test accepts exactly the bodies that contain, at any
    place, [is_valid] in any letter case, then any white space, a colon, any
    white space, and [true] in any letter case. *)
Theorem is_valid_true_spec (s : string) :
  is_valid_true s = true
  <-> exists before x ws1 ws2 y after,
        s = before ++ x ++ ws1 ++ ":" ++ ws2 ++ y ++ after
        /\ literal true "is_valid" x = Some ""
        /\ spaces ws1 = "" /\ spaces ws2 = ""
        /\ literal true "true" y = Some "".
Proof.
  split.
  - induction s as [|c s IH].
    + discriminate.
    + rewrite is_valid_true_step. intros Hs.
      apply orb_true_iff in Hs. destruct Hs as [Hhere|Hlater].
      * unfold is_valid_here in Hhere.
        destruct (literal true "is_valid" (String c s)) as [r1|] eqn:L1;
          [|discriminate].
        destruct (literal false ":" (spaces r1)) as [r2|] eqn:L2;
          [|discriminate].
        destruct (literal true "true" (spaces r2)) as [r3|] eqn:L3;
          [|discriminate].
        destruct (literal_split _ _ _ _ L1) as (x & Hx & Hxl).
        destruct (spaces_split r1) as (ws1 & Hr1 & Hws1).
        apply literal_exact in L2.
        destruct (spaces_split r2) as (ws2 & Hr2 & Hws2).
        destruct (literal_split _ _ _ _ L3) as (y & Hy & Hyl).
        exists "", x, ws1, ws2, y, r3.
        split; [|repeat split; assumption].
        rewrite Hx. rewrite Hr1 at 1. rewrite L2. rewrite Hr2 at 1.
        rewrite Hy. reflexivity.
      * destruct (IH Hlater)
          as (before & x & ws1 & ws2 & y & after & -> & Hrest).
        exists (String c before), x, ws1, ws2, y, after.
        split; [reflexivity | exact Hrest].
  - intros (before & x & ws1 & ws2 & y & after & -> & Hx & H1 & H2 & Hy).
    induction before as [|c before IH].
    + apply is_valid_here_true. unfold is_valid_here. simpl append at 1.
      rewrite (literal_app _ _ _ _ Hx), (spaces_app _ _ H1).
      change (":" ++ ws2 ++ y ++ after)
        with (String ":" (ws2 ++ y ++ after)).
      rewrite (spaces_stop ":") by reflexivity.
      change (literal false ":" (String ":" (ws2 ++ y ++ after)))
        with (Some (ws2 ++ y ++ after)).
      cbv beta iota.
      rewrite (spaces_app _ _ H2), (spaces_stop_true _ _ Hy).
      now rewrite (literal_app _ _ _ _ Hy).
    + change (String c before ++ ?r) with (String c (before ++ r)).
      rewrite is_valid_true_step, IH. apply orb_true_r.
Qed.

End PatternSpecs.

(** ** Further properties of the verifier and of the provider *)

Section Flows.

Context `{Platform}.

Lemma token_url_params_nonempty (sp : URLSearchParams) :
  token_url_params sp <> [].
Proof.
  unfold token_url_params, URLSearchParams_of, obj_spread.
  match goal with
  | |- context [fold_left _ ?src ?o] =>
      destruct (fold_obj_set_keys fst snd src o) as (rest & Hkeys & _)
  end.
  intros Hnil. rewrite Hnil in Hkeys. discriminate Hkeys.
Qed.

Lemma URLSearchParams_toString_nonempty (p : URLSearchParams) :
  p <> [] -> is_empty (URLSearchParams_toString p) = false.
Proof.
  destruct p as [|[k v] p]; [congruence|]. intros _.
  assert (Hcat : forall a b, is_empty (a ++ "=" ++ b) = false)
    by (intros [|c a] b; reflexivity).
  destruct p; simpl; apply Hcat.
Qed.

Lemma signed_key_iff (l : list string) (n : string) :
  In ("openid." ++ n) (map (append "openid.") l) <-> In n l.
Proof.
  split; [|apply in_map].
  intros Hin. apply in_map_iff in Hin. destruct Hin as (x & Hx & Hin).
  simpl in Hx. injection Hx as ->. exact Hin.
Qed.

(** X6.  The verifier sends nothing when the URL is empty or does not
    parse, and otherwise exactly one request, whatever the answer; it draws
    no UUID.  The request is a POST whose URL carries, as its query, the
    same urlencoded parameters as its body. *)
Theorem verifyAssertion_requests (url : string) (e : Env) :
  snd (verifyAssertion url e)
  = match URL_new url with
    | Some u => sent e (verification_request (searchParams u))
    | None => e
    end
  /\ drawn (snd (verifyAssertion url e)) = drawn e
  /\ forall sp,
       method (verification_request sp) = "POST"
       /\ body (verification_request sp)
          = Some (URLSearchParams_toString (token_url_params sp))
       /\ Web.url (verification_request sp)
          = "https://steamcommunity.com/openid/login?"
            ++ URLSearchParams_toString (token_url_params sp).
Proof.
  assert (Hsnd : snd (verifyAssertion url e)
                 = match URL_new url with
                   | Some u => sent e (verification_request (searchParams u))
                   | None => e
                   end).
  { destruct (URL_new url) as [u|] eqn:Hu.
    - now apply verifyAssertion_env.
    - destruct (string_dec url "") as [->|Hne]; [reflexivity|].
      now rewrite (verifyAssertion_invalid url e Hne Hu). }
  split; [exact Hsnd|]. split.
  - rewrite Hsnd. destruct (URL_new url); reflexivity.
  - intros sp. split; [reflexivity|]. split; [reflexivity|].
    unfold verification_request, with_search. simpl.
    now rewrite (URLSearchParams_toString_nonempty _
                   (token_url_params_nonempty sp)).
Qed.

(** X7.  The verifier returns an identifier only for a callback whose
    signed list names [claimed_id] and whose own [openid.claimed_id] (the
    first one) is a Steam identity URL ending in that identifier: a claimed
    identifier that is not declared signed is never trusted. *)
Theorem verifyAssertion_sound (url : string) (e : Env) (i : string) :
  fst (verifyAssertion url e) = Normal (Some i) ->
  exists u,
    URL_new url = Some u
    /\ In "claimed_id"
         (split "," (get_or_empty (searchParams u) "openid.signed"))
    /\ (URLSearchParams_get (searchParams u) "openid.claimed_id"
        = Some ("http://steamcommunity.com/openid/id/" ++ i)
        \/ URLSearchParams_get (searchParams u) "openid.claimed_id"
           = Some ("https://steamcommunity.com/openid/id/" ++ i)).
Proof.
  intros Hrun.
  destruct (verifyAssertion_identifier url e i Hrun)
    as (u & resp & c & Hu & _ & _ & Hc & Hp).
  exists u. split; [exact Hu|].
  destruct (in_dec string_dec "claimed_id"
              (split "," (get_or_empty (searchParams u) "openid.signed")))
    as [Hin|Hnin].
  - split; [exact Hin|].
    change "openid.claimed_id" with ("openid." ++ "claimed_id") in Hc.
    rewrite (token_url_params_echo _ _ Hin) in Hc. injection Hc as <-.
    unfold get_or_empty in Hp. simpl in Hp. simpl.
    destruct (URLSearchParams_get (searchParams u) "openid.claimed_id")
      as [c|]; [|discriminate Hp].
    simpl in Hp. apply IDENTIFIER_PATTERN_shape in Hp.
    destruct Hp as ([-> | ->] & _); auto.
  - exfalso.
    rewrite token_url_params_literal in Hc; [discriminate Hc|].
    change "openid.claimed_id" with ("openid." ++ "claimed_id").
    now rewrite signed_key_iff.
Qed.

(** X8.  Round trip for every identifier: when the signed list names
    [claimed_id], the callback's [openid.claimed_id] is the Steam identity
    URL of a non-empty digit string [d], and the identity provider answers
    with a body that passes the validity test, the verifier returns [d]
    after its one request. *)
Theorem verifyAssertion_complete (url : string) (u : URL) (resp : Response)
  (c d : string) (e : Env) :
  URL_new url = Some u ->
  In "claimed_id"
     (split "," (get_or_empty (searchParams u) "openid.signed")) ->
  URLSearchParams_get (searchParams u) "openid.claimed_id" = Some c ->
  c = "http://steamcommunity.com/openid/id/" ++ d
  \/ c = "https://steamcommunity.com/openid/id/" ++ d ->
  d <> "" ->
  all_digits d = true ->
  fetch (verification_request (searchParams u)) = Responded resp ->
  is_valid_true (text resp) = true ->
  verifyAssertion url e
  = (Normal (Some d), sent e (verification_request (searchParams u))).
Proof.
  intros Hu Hin Hc Hshape Hne Hd Hf Hv.
  rewrite (verifyAssertion_responded url u resp e Hu Hf), Hv.
  change "openid.claimed_id" with ("openid." ++ "claimed_id").
  rewrite (token_url_params_echo _ _ Hin).
  unfold get_or_empty. simpl append. rewrite Hc. simpl or_empty.
  destruct (IDENTIFIER_PATTERN_accepts d Hne Hd) as (Hhttp & Hhttps).
  destruct Hshape as [-> | ->]; [now rewrite Hhttp | now rewrite Hhttps].
Qed.

(** X9.  When the verifier returns an identifier, [token.request] returns a
    token set with that identifier as [steamId] and the next two UUIDs of
    the source as [id_token] and [access_token], in that order; it has sent
    the verifier's one request and nothing else. *)
Theorem token_request_success (req : IncomingRequest) (url i : string)
  (e : Env) :
  req_url req = Some url ->
  fst (verifyAssertion url e) = Normal (Some i) ->
  token_request req e
  = (Normal {| tokens := {| id_token := uuidv4 (drawn e);
                            access_token := uuidv4 (S (drawn e));
                            steamId := i |} |},
     {| issued := issued (snd (verifyAssertion url e));
        drawn := S (S (drawn e)) |}).
Proof.
  intros Hreq Hrun.
  destruct (verifyAssertion_identifier url e i Hrun)
    as (u & resp & c & Hu & _ & _ & _ & Hp).
  apply IDENTIFIER_PATTERN_shape in Hp. destruct Hp as (_ & Hi & _).
  pose proof (verifyAssertion_env url u e Hu) as Henv.
  unfold token_request.
  rewrite Hreq, (is_empty_false url (URL_new_nonempty url u Hu)).
  unfold bind. destruct (verifyAssertion url e) as [r e'].
  simpl in Hrun, Henv. subst r e'.
  rewrite (is_empty_false i Hi). reflexivity.
Qed.


(** X11.  [userinfo.request] sends exactly one request, a GET without
    body, whatever the answer, and draws no UUID. *)
Theorem userinfo_request_requests (context : UserinfoContext) (e : Env) :
  snd (userinfo_request context e) = sent e (profile_request context)
  /\ method (profile_request context) = "GET"
  /\ body (profile_request context) = None.
Proof.
  split; [|split; reflexivity].
  unfold userinfo_request, bind, await_fetch, await_json, lift, ret, throw.
  destruct (fetch (profile_request context)) as [|resp]; [reflexivity|].
  destruct (json resp) as [data|]; [|reflexivity].
  destruct (member data "response") as [r|]; [|reflexivity].
  destruct (member r "players"); reflexivity.
Qed.

(** X12.  When the players collection of the profile answer is not empty,
    [userinfo.request] resolves to its first entry, whatever the other
    entries are. *)
Theorem userinfo_request_first_player (context : UserinfoContext)
  (resp : Response) (data r p : JSValue) (others : list JSValue) (e : Env) :
  fetch (profile_request context) = Responded resp ->
  json resp = Some data ->
  member data "response" = Normal r ->
  member r "players" = Normal (JArray (p :: others)) ->
  userinfo_request context e = (Normal p, sent e (profile_request context)).
Proof.
  intros Hf Hj Hr Hp.
  unfold userinfo_request, bind, await_fetch, await_json, lift, ret.
  rewrite Hf, Hj, Hr, Hp. reflexivity.
Qed.

(** X13.  A JSON answer without [response], or whose [response] has no
    [players], makes [userinfo.request] throw the TypeError of reading a
    property of undefined. *)
Theorem userinfo_request_malformed (context : UserinfoContext)
  (resp : Response) (data r : JSValue) (e : Env) :
  fetch (profile_request context) = Responded resp ->
  json resp = Some data ->
  member data "response" = Normal r ->
  r = JUndefined \/ r = JNull
  \/ member r "players" = Normal JUndefined
  \/ member r "players" = Normal JNull ->
  userinfo_request context e
  = (Throw cannot_read, sent e (profile_request context)).
Proof.
  intros Hf Hj Hr Hbad.
  unfold userinfo_request, bind, await_fetch, await_json, lift, ret.
  rewrite Hf, Hj, Hr.
  destruct Hbad as [-> | [-> | [Hp | Hp]]]; try reflexivity;
    rewrite Hp; reflexivity.
Qed.

(** X14.  [Steam] returns a provider exactly when the callback URL of the
    options parses and the secret is a non-empty string; in every case it
    leaves the network untouched. *)
Theorem Steam_succeeds_iff (req : IncomingRequest)
  (opts : SteamProviderOptions) (e : Env) :
  ((exists p, fst (Steam req opts e) = Normal p)
   <-> (exists u, URL_new (callbackUrl opts) = Some u)
       /\ (exists s, clientSecret opts = Some s /\ s <> ""))
  /\ snd (Steam req opts e) = e.
Proof.
  unfold Steam, bind, lift, new_URL, secret_missing, ret, throw.
  destruct (URL_new (callbackUrl opts)) as [u|].
  - destruct (clientSecret opts) as [[|c s]|]; simpl; (split; [|reflexivity]).
    + split; [intros (p & Hp); discriminate Hp|].
      intros (_ & s & [= <-] & Hs). congruence.
    + split; [|intros _; eexists; reflexivity].
      intros _. split; [eauto|]. exists (String c s). split; [auto|discriminate].
    + split; [intros (p & Hp); discriminate Hp|].
      intros (_ & s & Hs & _). discriminate Hs.
  - split; [|reflexivity].
    split; [intros (p & Hp); discriminate Hp|].
    intros ((u & Hu) & _). discriminate Hu.
Qed.

(** X15.  With a callback URL that parses and a non-empty secret, [Steam]
    returns a provider that asks the identity provider to come back to the
    callback URL followed by [/steam], with the origin of the callback URL
    as realm, in [checkid_setup] mode with the identifier-select identity;
    its [token] is the token operation of the request it was built for, and
    it keeps the options. *)
Theorem Steam_provider (req : IncomingRequest) (opts : SteamProviderOptions)
  (u : URL) (secret : string) (e : Env) :
  URL_new (callbackUrl opts) = Some u ->
  clientSecret opts = Some secret ->
  secret <> "" ->
  exists p,
    Steam req opts e = (Normal p, e)
    /\ auth_url (authorization p) = "https://steamcommunity.com/openid/login"
    /\ obj_get (auth_params (authorization p)) "openid.return_to"
       = Some (href u ++ "/steam")
    /\ obj_get (auth_params (authorization p)) "openid.realm"
       = Some (origin u)
    /\ obj_get (auth_params (authorization p)) "openid.mode"
       = Some "checkid_setup"
    /\ obj_get (auth_params (authorization p)) "openid.identity"
       = Some "http://specs.openid.net/auth/2.0/identifier_select"
    /\ obj_get (auth_params (authorization p)) "openid.claimed_id"
       = Some "http://specs.openid.net/auth/2.0/identifier_select"
    /\ token p = token_request req
    /\ userinfo p = userinfo_request
    /\ provider_id p = "steam" /\ clientId p = "steam"
    /\ options p = opts.
Proof.
  intros Hu Hs Hne.
  unfold Steam, bind, lift, new_URL, ret, throw, secret_missing.
  rewrite Hu, Hs. destruct secret as [|c secret]; [congruence|].
  simpl. eexists. repeat split.
Qed.

(** X16.  The [providers] array of the route handler is built exactly when
    [NEXTAUTH_URL] followed by [/api/auth/callback] parses as a URL and
    [STEAM_CLIENT_SECRET] is set and not empty, and then holds the Steam
    provider alone; otherwise the handler throws before [NextAuth] is
    called.  No request is sent while it is built. *)
Theorem providers_built_iff (env : ProcessEnv) (req : IncomingRequest)
  (e : Env) :
  ((exists ps, fst (providers env req e) = Normal ps)
   <-> (exists u,
          URL_new (template (NEXTAUTH_URL env) ++ "/api/auth/callback")
          = Some u)
       /\ (exists s, STEAM_CLIENT_SECRET env = Some s /\ s <> ""))
  /\ (forall ps, fst (providers env req e) = Normal ps ->
        exists p, ps = [p] /\ fst (Steam req (steam_options env) e) = Normal p
                  /\ provider_id p = "steam")
  /\ snd (providers env req e) = e.
Proof.
  unfold providers, bind, Steam, lift, new_URL, secret_missing, ret, throw.
  simpl.
  destruct (URL_new (template (NEXTAUTH_URL env) ++ "/api/auth/callback"))
    as [u|].
  - destruct (STEAM_CLIENT_SECRET env) as [[|c s]|]; simpl;
      (split; [|split; [|reflexivity]]).
    + split; [intros (p & Hp); discriminate Hp|].
      intros (_ & s & [= <-] & Hs). congruence.
    + intros ps Hps. discriminate Hps.
    + split; [|intros _; eexists; reflexivity].
      intros _. split; [eauto|]. exists (String c s). split; [auto|discriminate].
    + intros ps [= <-]. eexists. repeat split.
    + split; [intros (p & Hp); discriminate Hp|].
      intros (_ & s & Hs & _). discriminate Hs.
    + intros ps Hps. discriminate Hps.
  - split; [|split; [|reflexivity]].
    + split; [intros (p & Hp); discriminate Hp|].
      intros ((u & Hu) & _). discriminate Hu.
    + intros ps Hps. discriminate Hps.
Qed.

(** X17.  [profile] throws exactly on undefined and null; on any other
    value it returns a user, whose fields are the members [steamid],
    [personaname], [avatarfull], [personastate],
    [communityvisibilitystate] and [timecreated] when the value is an
    object. *)
Theorem profile_throws_iff (p : JSValue) :
  ((exists err, profile p = Throw err) <-> p = JUndefined \/ p = JNull)
  /\ forall o,
       p = JObject o ->
       profile p
       = Normal {| id := own_property o "steamid";
                   name := own_property o "personaname";
                   image := own_property o "avatarfull";
                   personState := own_property o "personastate";
                   communityVisibilityState :=
                     own_property o "communityvisibilitystate";
                   accountCreated := own_property o "timecreated" |}.
Proof.
  split.
  - split.
    + intros (err & Herr). destruct p; auto; discriminate Herr.
    + intros [-> | ->]; eexists; reflexivity.
  - intros o ->. reflexivity.
Qed.

End Flows.

(** On the reference platform, a deployment without [NEXTAUTH_URL] makes
    the handler throw the TypeError of [new URL] on every request: the
    callback URL is then [undefined/api/auth/callback]. *)
Example providers_without_NEXTAUTH_URL (reply : Request -> FetchOutcome)
  (uuid : nat -> string) (secret : option string) (req : IncomingRequest)
  (e : Env) :
  @providers (whatwg reply uuid)
    {| NEXTAUTH_URL := None; STEAM_CLIENT_SECRET := secret |} req e
  = (Throw (TypeError "Invalid URL"), e).
Proof. reflexivity. Qed.

(** ** The request on the wire *)

Section Wire.

Lemma append_assoc (a b c : string) : (a ++ b) ++ c = a ++ b ++ c.
Proof. induction a as [|x a IH]; simpl; [reflexivity | now rewrite IH]. Qed.

Lemma plus_to_space_app (a b : string) :
  plus_to_space (a ++ b) = plus_to_space a ++ plus_to_space b.
Proof. induction a as [|x a IH]; simpl; [reflexivity | now rewrite IH]. Qed.

Lemma percent_decode_byte (c : ascii) (r : string) :
  percent_decode (plus_to_space (urlencode_byte c) ++ r)
  = String c (percent_decode r).
Proof.
  destruct c as [[] [] [] [] [] [] [] []];
    first [ reflexivity | destruct r as [|h [|l r]]; reflexivity ].
Qed.

Lemma decode_urlencode (s : string) : decode_component (urlencode s) = s.
Proof.
  unfold decode_component. induction s as [|c s IH]; [reflexivity|].
  simpl urlencode. rewrite plus_to_space_app, percent_decode_byte.
  now rewrite IH.
Qed.

Lemma cut_app (sep : ascii) (a b : string) :
  cut sep a = (a, None) -> cut sep (a ++ String sep b) = (a, Some b).
Proof.
  induction a as [|x a IH]; simpl.
  - intros _. now rewrite Ascii.eqb_refl.
  - destruct (Ascii.eqb x sep); [discriminate|].
    destruct (cut sep a) as [a' o] eqn:E. intros [= -> ->].
    now rewrite IH.
Qed.

Lemma split_nonempty (sep : ascii) (s : string) : split sep s <> [].
Proof.
  destruct s as [|x s]; simpl; [discriminate|].
  destruct (Ascii.eqb x sep); [discriminate|].
  destruct (split sep s); discriminate.
Qed.

Lemma split_app (sep : ascii) (a b : string) :
  split sep a = [a] -> split sep (a ++ String sep b) = a :: split sep b.
Proof.
  induction a as [|x a IH]; simpl.
  - intros _. now rewrite Ascii.eqb_refl.
  - destruct (Ascii.eqb x sep); [discriminate|].
    destruct (split sep a) as [|h t] eqn:E;
      [now apply split_nonempty in E|].
    intros [= -> ->]. now rewrite IH.
Qed.

Lemma cut_none_app (sep : ascii) (a b : string) :
  cut sep a = (a, None) -> cut sep b = (b, None) ->
  cut sep (a ++ b) = (a ++ b, None).
Proof.
  intros Ha Hb. induction a as [|x a IH]; simpl in *; [exact Hb|].
  destruct (Ascii.eqb x sep); [discriminate|].
  destruct (cut sep a) as [a' o]. injection Ha as -> ->.
  now rewrite IH.
Qed.

Lemma split_one_app (sep : ascii) (a b : string) :
  split sep a = [a] -> split sep b = [b] -> split sep (a ++ b) = [a ++ b].
Proof.
  intros Ha Hb. induction a as [|x a IH]; simpl in *; [exact Hb|].
  destruct (Ascii.eqb x sep); [discriminate|].
  destruct (split sep a) as [|h t] eqn:E;
    [now apply split_nonempty in E|].
  injection Ha as -> ->. now rewrite IH.
Qed.

Lemma urlencode_byte_plain (c : ascii) :
  cut "=" (urlencode_byte c) = (urlencode_byte c, None)
  /\ split "&" (urlencode_byte c) = [urlencode_byte c].
Proof. destruct c as [[] [] [] [] [] [] [] []]; split; reflexivity. Qed.

Lemma urlencode_plain (s : string) :
  cut "=" (urlencode s) = (urlencode s, None)
  /\ split "&" (urlencode s) = [urlencode s].
Proof.
  induction s as [|c s (IHc & IHs)]; [split; reflexivity|].
  destruct (urlencode_byte_plain c) as (Hc & Hs). simpl urlencode.
  split; [now apply cut_none_app | now apply split_one_app].
Qed.

(** One [name=value] pair of a serialized parameter list. *)
Lemma parse_pair (k v : string) :
  split "&" (urlencode k ++ "=" ++ urlencode v)
  = [urlencode k ++ "=" ++ urlencode v]
  /\ is_empty (urlencode k ++ "=" ++ urlencode v) = false
  /\ cut "=" (urlencode k ++ "=" ++ urlencode v)
     = (urlencode k, Some (urlencode v)).
Proof.
  destruct (urlencode_plain k) as (Hck & Hsk).
  destruct (urlencode_plain v) as (Hcv & Hsv).
  split; [|split].
  - apply split_one_app; [exact Hsk|].
    change ("=" ++ urlencode v) with (String "=" (urlencode v)).
    change (String "=" (urlencode v)) with ("=" ++ urlencode v).
    now apply (split_one_app "&" "=" (urlencode v)).
  - destruct (urlencode k); reflexivity.
  - change ("=" ++ urlencode v) with (String "=" (urlencode v)).
    now apply cut_app.
Qed.

Lemma parse_urlencoded_toString (p : URLSearchParams) :
  parse_urlencoded (URLSearchParams_toString p) = p.
Proof.
  induction p as [|[k v] p IH]; [reflexivity|].
  destruct (parse_pair k v) as (Hsplit & Hne & Hcut).
  destruct p as [|kv p].
  - unfold parse_urlencoded. cbn [URLSearchParams_toString].
    rewrite Hsplit. cbn [flat_map]. rewrite Hne, Hcut.
    cbn [or_empty]. now rewrite !decode_urlencode.
  - change (URLSearchParams_toString ((k, v) :: kv :: p))
      with (urlencode k ++ "=" ++ urlencode v ++ "&"
            ++ URLSearchParams_toString (kv :: p)).
    unfold parse_urlencoded in *.
    replace (urlencode k ++ "=" ++ urlencode v ++ "&"
             ++ URLSearchParams_toString (kv :: p))
      with ((urlencode k ++ "=" ++ urlencode v)
            ++ String "&" (URLSearchParams_toString (kv :: p)))
      by (now rewrite !append_assoc).
    rewrite (split_app "&" _ _ Hsplit). cbn [flat_map].
    rewrite Hne, Hcut, IH. cbn [or_empty]. now rewrite !decode_urlencode.
Qed.

(** X18.  What the urlencoded parser reads from the body of the
    verification request is the parameter list that the verifier built,
    names, values and order: serializing loses nothing, whatever bytes the
    callback held. *)
Theorem verification_request_body (sp : URLSearchParams) :
  exists q,
    body (verification_request sp) = Some q
    /\ parse_urlencoded q = token_url_params sp
    /\ Web.url (verification_request sp)
       = "https://steamcommunity.com/openid/login?" ++ q.
Proof.
  exists (URLSearchParams_toString (token_url_params sp)).
  split; [reflexivity|]. split; [apply parse_urlencoded_toString|].
  unfold verification_request, with_search. simpl.
  now rewrite (URLSearchParams_toString_nonempty _
                 (token_url_params_nonempty sp)).
Qed.

End Wire.

(** ** Requests that carry a path only *)

Lemma whatwg_URL_new_path (path : string) :
  whatwg_URL_new ("/" ++ path) = None.
Proof.
  unfold whatwg_URL_new. simpl.
  destruct (trim_right path); reflexivity.
Qed.

(** X19.  On the reference platform, a request whose [url] is a path with
    its query (what a Node [IncomingMessage] gives) makes [token.request]
    throw the TypeError of [new URL], whatever the query holds, and nothing
    is sent. *)
Theorem token_request_path_only (reply : Request -> FetchOutcome)
  (uuid : nat -> string) (path : string) (e : Env) :
  @token_request (whatwg reply uuid) {| req_url := Some ("/" ++ path) |} e
  = (Throw (TypeError "Invalid URL"), e).
Proof.
  unfold token_request, verifyAssertion, bind, lift, new_URL. simpl.
  change (whatwg_URL_new (String "/" path))
    with (whatwg_URL_new ("/" ++ path)).
  now rewrite whatwg_URL_new_path.
Qed.

(** ** The further properties at work *)

Lemma token_url_params_values_witness :
  "https://steamcommunity.com/openid/id/76561197960287930"
  = get_or_empty (searchParams (parsed steam_callback)) "openid.claimed_id"
  \/ ("openid.claimed_id" = "openid.ns"
      /\ "https://steamcommunity.com/openid/id/76561197960287930"
         = "http://specs.openid.net/auth/2.0")
  \/ ("openid.claimed_id" = "openid.mode"
      /\ "https://steamcommunity.com/openid/id/76561197960287930"
         = "check_authentication").
Proof.
  apply (token_url_params_values (searchParams (parsed steam_callback))
           "openid.claimed_id"
           "https://steamcommunity.com/openid/id/76561197960287930").
  vm_compute. reflexivity.
Defined.

Lemma verifyAssertion_sound_witness :
  exists u,
    whatwg_URL_new steam_callback = Some u
    /\ In "claimed_id"
         (split "," (get_or_empty (searchParams u) "openid.signed"))
    /\ (URLSearchParams_get (searchParams u) "openid.claimed_id"
        = Some ("http://steamcommunity.com/openid/id/" ++ "76561197960287930")
        \/ URLSearchParams_get (searchParams u) "openid.claimed_id"
           = Some ("https://steamcommunity.com/openid/id/"
                   ++ "76561197960287930")).
Proof.
  apply (@verifyAssertion_sound accepting steam_callback start
           "76561197960287930").
  vm_compute. reflexivity.
Defined.

Lemma verifyAssertion_complete_witness :
  @verifyAssertion accepting steam_callback start
  = (Normal (Some "76561197960287930"),
     sent start (verification_request (searchParams (parsed steam_callback)))).
Proof.
  apply (@verifyAssertion_complete accepting steam_callback
           (parsed steam_callback) {| text := valid_body; json := None |}
           "https://steamcommunity.com/openid/id/76561197960287930"
           "76561197960287930" start).
  - vm_compute. reflexivity.
  - vm_compute. auto.
  - vm_compute. reflexivity.
  - right. reflexivity.
  - discriminate.
  - reflexivity.
  - reflexivity.
  - vm_compute. reflexivity.
Defined.

Lemma token_request_success_witness :
  @token_request accepting {| req_url := Some steam_callback |} start
  = (Normal {| tokens := {| id_token := uuid_of 0;
                            access_token := uuid_of 1;
                            steamId := "76561197960287930" |} |},
     {| issued := issued (snd (@verifyAssertion accepting steam_callback
                                 start));
        drawn := 2 |}).
Proof.
  apply (@token_request_success accepting
           {| req_url := Some steam_callback |} steam_callback
           "76561197960287930" start).
  - reflexivity.
  - vm_compute. reflexivity.
Defined.


Lemma userinfo_request_first_player_witness :
  @userinfo_request profile_api some_context start
  = (Normal gabe, sent start (profile_request some_context)).
Proof.
  apply (@userinfo_request_first_player profile_api some_context
           {| text := ""; json := Some two_players |} two_players
           (JObject [("players", JArray [gabe; other_player])])
           gabe [other_player] start); reflexivity.
Defined.

Lemma userinfo_request_malformed_witness :
  @userinfo_request broken_profile_api some_context start
  = (Throw cannot_read, sent start (profile_request some_context)).
Proof.
  apply (@userinfo_request_malformed broken_profile_api some_context
           {| text := ""; json := Some forbidden_answer |} forbidden_answer
           JUndefined start); try reflexivity.
  left. reflexivity.
Defined.

Lemma Steam_provider_witness :
  exists p,
    @Steam accepting {| req_url := Some steam_callback |} configured start
    = (Normal p, start)
    /\ auth_url (authorization p) = "https://steamcommunity.com/openid/login"
    /\ obj_get (auth_params (authorization p)) "openid.return_to"
       = Some (href (parsed (callbackUrl configured)) ++ "/steam")
    /\ obj_get (auth_params (authorization p)) "openid.realm"
       = Some (origin (parsed (callbackUrl configured)))
    /\ obj_get (auth_params (authorization p)) "openid.mode"
       = Some "checkid_setup"
    /\ obj_get (auth_params (authorization p)) "openid.identity"
       = Some "http://specs.openid.net/auth/2.0/identifier_select"
    /\ obj_get (auth_params (authorization p)) "openid.claimed_id"
       = Some "http://specs.openid.net/auth/2.0/identifier_select"
    /\ token p = @token_request accepting {| req_url := Some steam_callback |}
    /\ userinfo p = @userinfo_request accepting
    /\ provider_id p = "steam" /\ clientId p = "steam"
    /\ options p = configured.
Proof.
  apply (@Steam_provider accepting {| req_url := Some steam_callback |}
           configured (parsed (callbackUrl configured))
           "0123456789ABCDEF0123456789ABCDEF" start).
  - vm_compute. reflexivity.
  - reflexivity.
  - discriminate.
Defined.

Example is_valid_any_case :
  literal true "is_valid" "Is_VaLiD" = Some ""
  /\ literal true "true" "TRUE" = Some ""
  /\ spaces (String (ascii_of_nat 9) (String (ascii_of_nat 194)
               (String (ascii_of_nat 160) " "))) = "".
Proof. repeat split. Qed.
